(** * LESS: the beatmap cache and its reconciliation with the osu! API

    A shallow embedding of
      - [src/consts/statuses.py]        (the status enumeration),
      - [src/app/models/beatmap.py]     (the dataclass, its staleness
                                         policy and its dict round trip),
      - [src/app/usecases/beatmap.py]   (parsing, saving and [update_beatmap]),
    followed by the properties of the specification that are about them.

    Conventions.  Python [int] is [Z]; [str] is [string]; [float] is the
    kernel's binary64 [float]; [Optional[T]] is [option T]; a [dict] with
    string keys is a [gmap string _]; a raised exception is the [Raise]
    branch of [Result].

    Time.  A Unix time is a [Z], in whole seconds: the timestamps the code
    stores are [int(time.time())].  A naive [datetime] is the [Z] that counts
    the seconds of its wall-clock reading from 1970-01-01 00:00:00 on that
    same wall clock, so that the difference and the comparison of two naive
    datetimes are those of these counts, and subtracting a [timedelta]
    subtracts its seconds.  [datetime.fromtimestamp(t)] is [t] plus the
    offset from UTC that the local zone has at [t], and [datetime.now()] is
    [fromtimestamp] of the clock.  Readings are whole seconds: the
    comparison of an integer timestamp with [datetime.now() - interval]
    only depends on the whole seconds of [datetime.now()].  Timestamps are
    taken within the years 1 to 9999 of local time, where [fromtimestamp]
    returns: those that [int(time.time())] gives are. *)

From Stdlib Require Import ZArith String Ascii List Lia.
From Corelib Require Import PrimFloat SpecFloat FloatOps Uint63Axioms.
From stdpp Require Import base option list gmap strings.

Local Open Scope string_scope.
Local Open Scope list_scope.
Local Open Scope Z_scope.

(** ** Python values and exceptions *)

(** The values that occur in the dictionaries of this program: JSON scalars
    of the osu! API, SQL parameters and result columns. *)
Inductive Value : Type :=
| VNone
| VBool (b : bool)
| VInt (n : Z)
| VFloat (x : float)
| VStr (s : string).

Inductive Exception : Type :=
| NotImplementedError (ranked_status : Z)
| KeyError (key : string)
| ValueError (msg : string)
| TypeError (msg : string)
| IndexError
| OtherError (msg : string).

Inductive Result (A : Type) : Type :=
| Return (a : A)
| Raise (e : Exception).
Arguments Return {A} a.
Arguments Raise {A} e.

Definition Result_bind {A B} (r : Result A) (k : A → Result B) : Result B :=
  match r with
  | Return a => k a
  | Raise e => Raise e
  end.

Declare Scope result_scope.
Delimit Scope result_scope with result.
Notation "x <~ r ; k" := (Result_bind r (fun x => k))
  (at level 100, r at next level, k at level 200, right associativity,
   format "'[v' x  <~  r ; '/' k ']'") : result_scope.

(** [mapping[key]]: a missing key raises [KeyError]. *)
Definition getitem (mapping : gmap string Value) (key : string) : Result Value :=
  match mapping !! key with
  | Some v => Return v
  | None => Raise (KeyError key)
  end.

(** The fields of the records below are typed, a Python object is not: a
    value of another type than the annotated one is reported as a
    [TypeError] where the record is built. *)
Definition as_str (v : Value) : Result string :=
  match v with VStr s => Return s | _ => Raise (TypeError "str") end.
Definition as_int (v : Value) : Result Z :=
  match v with VInt n => Return n | _ => Raise (TypeError "int") end.
Definition as_float (v : Value) : Result float :=
  match v with VFloat x => Return x | _ => Raise (TypeError "float") end.
Definition as_bool (v : Value) : Result bool :=
  match v with VBool b => Return b | _ => Raise (TypeError "bool") end.
Definition as_optional_float (v : Value) : Result (option float) :=
  match v with
  | VNone => Return None
  | VFloat x => Return (Some x)
  | _ => Raise (TypeError "Optional[float]")
  end.

Definition of_optional_float (o : option float) : Value :=
  match o with Some x => VFloat x | None => VNone end.
Definition of_optional_int (o : option Z) : Value :=
  match o with Some n => VInt n | None => VNone end.

(** ** [src/consts/statuses.py] *)

(** [class Status(IntEnum)].  The other two files use these members under
    the name [RankedStatus], which they import from
    [app/constants/ranked_status.py]; that module is not among the sources
    and is taken to declare this enumeration. *)
Inductive Status : Type :=
| NOT_SUBMITTED
| PENDING
| UPDATE_AVAILABLE
| RANKED
| APPROVED
| QUALIFIED
| LOVED.

Abbreviation RankedStatus := Status.

#[export] Instance Status_eq_dec : EqDecision Status.
Proof. solve_decision. Defined.

Module StatusEnum.

(** [member.value] *)
Definition value (s : Status) : Z :=
  match s with
  | NOT_SUBMITTED => -1
  | PENDING => 0
  | UPDATE_AVAILABLE => 1
  | RANKED => 2
  | APPROVED => 3
  | QUALIFIED => 4
  | LOVED => 5
  end.

Definition members : list Status :=
  [NOT_SUBMITTED; PENDING; UPDATE_AVAILABLE; RANKED; APPROVED; QUALIFIED; LOVED].

(** [Status(n)]: the member whose value is [n], [ValueError] when there
    is none. *)
Definition call (n : Z) : Result Status :=
  match List.find (fun s => value s =? n) members with
  | Some s => Return s
  | None => Raise (ValueError "is not a valid RankedStatus")
  end.

End StatusEnum.

(** Modelled from the spec: [app/constants/mode.py] is not among the
    sources; the data model gives [mode] as the enumeration
    std, taiko, ctb, mania, numbered here 0 to 3 as the osu! API does. *)
Inductive Mode : Type :=
| STD
| TAIKO
| CTB
| MANIA.

Module ModeEnum.

Definition value (m : Mode) : Z :=
  match m with
  | STD => 0
  | TAIKO => 1
  | CTB => 2
  | MANIA => 3
  end.

Definition members : list Mode := [STD; TAIKO; CTB; MANIA].

Definition call (n : Z) : Result Mode :=
  match List.find (fun m => value m =? n) members with
  | Some m => Return m
  | None => Raise (ValueError "is not a valid Mode")
  end.

End ModeEnum.

(** ** [src/app/models/beatmap.py] *)

Module Model.

Import StatusEnum.

Definition ONE_DAY : Z := 86400.

(** [timedelta(minutes=n)] and [timedelta(days=n)], in seconds. *)
Definition timedelta_minutes (n : Z) : Z := n * 60.
Definition timedelta_days (n : Z) : Z := n * 86400.

(** [datetime.fromtimestamp(timestamp)], with no [tz]: the naive local
    time of a Unix time, in a zone whose offset from UTC at the Unix time
    [t] is [utcoffset t] seconds. *)
Definition fromtimestamp (utcoffset : Z → Z) (timestamp : Z) : Z :=
  timestamp + utcoffset timestamp.

(** [_should_get_updates(ranked_status, last_updated)].  [last_updated] is
    a naive datetime, and so is the reading of [datetime.now()] that the
    body makes, which is the argument [now]. *)
Definition _should_get_updates (ranked_status : Z) (last_updated : Z)
    (now : Z) : Result bool :=
  (update_interval <~
     (if ranked_status =? value QUALIFIED then
        Return (timedelta_minutes 5)
      else if ranked_status =? value PENDING then
        Return (timedelta_minutes 10)
      else if ranked_status =? value LOVED then
        Return (timedelta_days 1)
      else if (ranked_status =? value RANKED)
              || (ranked_status =? value APPROVED) then
        Return (timedelta_days 1)
      else
        Raise (NotImplementedError ranked_status));
   Return (last_updated <=? now - update_interval))%result.

(** [@dataclass class Beatmap], field by field as declared. *)
Record Beatmap : Type := {
  md5 : string;
  id : Z;
  set_id : Z;
  song_name : string;
  status : RankedStatus;
  plays : Z;
  passes : Z;
  mode : Mode;
  od : float;
  ar : float;
  difficulty_std : float;
  difficulty_taiko : float;
  difficulty_ctb : float;
  difficulty_mania : float;
  hit_length : Z;
  last_update : Z;
  max_combo : Z;
  bpm : Z;
  filename : string;
  frozen : bool;
  rating : option float;
}.

(** [gives_pp] and [has_leaderboard] *)
Definition gives_pp (self : Beatmap) : bool :=
  bool_decide (status self = RANKED) || bool_decide (status self = APPROVED).

Definition has_leaderboard (self : Beatmap) : bool :=
  value RANKED <=? value (status self).

(** [deserves_update], in the zone [utcoffset] when the clock reads the
    Unix time [now]: both [datetime.fromtimestamp(self.last_update)] and
    [datetime.now()] are naive local times. *)
Definition deserves_update (self : Beatmap) (utcoffset : Z → Z) (now : Z)
    : Result bool :=
  _should_get_updates (value (status self))
    (fromtimestamp utcoffset (last_update self))
    (fromtimestamp utcoffset now).

Definition to_dict (self : Beatmap) : gmap string Value :=
  list_to_map [
    ("beatmap_md5", VStr (md5 self));
    ("beatmap_id", VInt (id self));
    ("beatmapset_id", VInt (set_id self));
    ("song_name", VStr (song_name self));
    ("ranked", VInt (value (status self)));
    ("playcount", VInt (plays self));
    ("passcount", VInt (passes self));
    ("mode", VInt (ModeEnum.value (mode self)));
    ("od", VFloat (od self));
    ("ar", VFloat (ar self));
    ("difficulty_std", VFloat (difficulty_std self));
    ("difficulty_taiko", VFloat (difficulty_taiko self));
    ("difficulty_ctb", VFloat (difficulty_ctb self));
    ("difficulty_mania", VFloat (difficulty_mania self));
    ("hit_length", VInt (hit_length self));
    ("latest_update", VInt (last_update self));
    ("max_combo", VInt (max_combo self));
    ("bpm", VInt (bpm self));
    ("file_name", VStr (filename self));
    ("ranked_status_freezed", VBool (frozen self));
    ("rating", of_optional_float (rating self))
  ].

Definition from_mapping (mapping : gmap string Value) : Result Beatmap :=
  (md5 <~ Result_bind (getitem mapping "beatmap_md5") as_str;
   id <~ Result_bind (getitem mapping "beatmap_id") as_int;
   set_id <~ Result_bind (getitem mapping "beatmapset_id") as_int;
   song_name <~ Result_bind (getitem mapping "song_name") as_str;
   ranked <~ Result_bind (getitem mapping "ranked") as_int;
   status <~ StatusEnum.call ranked;
   plays <~ Result_bind (getitem mapping "playcount") as_int;
   passes <~ Result_bind (getitem mapping "passcount") as_int;
   mode_value <~ Result_bind (getitem mapping "mode") as_int;
   mode <~ ModeEnum.call mode_value;
   od <~ Result_bind (getitem mapping "od") as_float;
   ar <~ Result_bind (getitem mapping "ar") as_float;
   difficulty_std <~ Result_bind (getitem mapping "difficulty_std") as_float;
   difficulty_taiko <~ Result_bind (getitem mapping "difficulty_taiko") as_float;
   difficulty_ctb <~ Result_bind (getitem mapping "difficulty_ctb") as_float;
   difficulty_mania <~ Result_bind (getitem mapping "difficulty_mania") as_float;
   hit_length <~ Result_bind (getitem mapping "hit_length") as_int;
   last_update <~ Result_bind (getitem mapping "latest_update") as_int;
   max_combo <~ Result_bind (getitem mapping "max_combo") as_int;
   bpm <~ Result_bind (getitem mapping "bpm") as_int;
   filename <~ Result_bind (getitem mapping "file_name") as_str;
   frozen <~ Result_bind (getitem mapping "ranked_status_freezed") as_bool;
   rating <~ Result_bind (getitem mapping "rating") as_optional_float;
   Return {|
     md5 := md5; id := id; set_id := set_id; song_name := song_name;
     status := status; plays := plays; passes := passes; mode := mode;
     od := od; ar := ar;
     difficulty_std := difficulty_std; difficulty_taiko := difficulty_taiko;
     difficulty_ctb := difficulty_ctb; difficulty_mania := difficulty_mania;
     hit_length := hit_length; last_update := last_update;
     max_combo := max_combo; bpm := bpm; filename := filename;
     frozen := frozen; rating := rating
   |})%result.

End Model.

(** ** [src/app/usecases/beatmap.py] *)

Module Usecases.

Import StatusEnum.

(** Modelled from the spec: the [Beatmap] class this file is written
    against is not the declaration of [src/app/models/beatmap.py] (it has
    [rankedby], [bancho_ranked_status] and the three object counts, and no
    per-mode star ratings).  Its attributes are the keyword arguments of
    the constructor call in [parse_from_osu_api], which are also the
    columns [save] writes and the record layout of the specification;
    [rankedby] (spec: attributed_by, an optional identity) is an optional
    user id. *)
Record Beatmap : Type := {
  md5 : string;
  id : Z;
  set_id : Z;
  song_name : string;
  status : RankedStatus;
  plays : Z;
  passes : Z;
  mode : Mode;
  od : float;
  ar : float;
  hit_length : Z;
  last_update : Z;
  max_combo : Z;
  bpm : Z;
  filename : string;
  frozen : bool;
  rankedby : option Z;
  rating : option float;
  bancho_ranked_status : option RankedStatus;
  count_circles : Z;
  count_sliders : Z;
  count_spinners : Z;
}.

(** Attribute assignment [self.f = v]. *)
Definition set_plays (v : Z) (self : Beatmap) : Beatmap :=
  {|
     md5 := md5 self;
     id := id self;
     set_id := set_id self;
     song_name := song_name self;
     status := status self;
     plays := v;
     passes := passes self;
     mode := mode self;
     od := od self;
     ar := ar self;
     hit_length := hit_length self;
     last_update := last_update self;
     max_combo := max_combo self;
     bpm := bpm self;
     filename := filename self;
     frozen := frozen self;
     rankedby := rankedby self;
     rating := rating self;
     bancho_ranked_status := bancho_ranked_status self;
     count_circles := count_circles self;
     count_sliders := count_sliders self;
     count_spinners := count_spinners self
  |}.

Definition set_passes (v : Z) (self : Beatmap) : Beatmap :=
  {|
     md5 := md5 self;
     id := id self;
     set_id := set_id self;
     song_name := song_name self;
     status := status self;
     plays := plays self;
     passes := v;
     mode := mode self;
     od := od self;
     ar := ar self;
     hit_length := hit_length self;
     last_update := last_update self;
     max_combo := max_combo self;
     bpm := bpm self;
     filename := filename self;
     frozen := frozen self;
     rankedby := rankedby self;
     rating := rating self;
     bancho_ranked_status := bancho_ranked_status self;
     count_circles := count_circles self;
     count_sliders := count_sliders self;
     count_spinners := count_spinners self
  |}.

Definition set_rating (v : option float) (self : Beatmap) : Beatmap :=
  {|
     md5 := md5 self;
     id := id self;
     set_id := set_id self;
     song_name := song_name self;
     status := status self;
     plays := plays self;
     passes := passes self;
     mode := mode self;
     od := od self;
     ar := ar self;
     hit_length := hit_length self;
     last_update := last_update self;
     max_combo := max_combo self;
     bpm := bpm self;
     filename := filename self;
     frozen := frozen self;
     rankedby := rankedby self;
     rating := v;
     bancho_ranked_status := bancho_ranked_status self;
     count_circles := count_circles self;
     count_sliders := count_sliders self;
     count_spinners := count_spinners self
  |}.

Definition set_rankedby (v : option Z) (self : Beatmap) : Beatmap :=
  {|
     md5 := md5 self;
     id := id self;
     set_id := set_id self;
     song_name := song_name self;
     status := status self;
     plays := plays self;
     passes := passes self;
     mode := mode self;
     od := od self;
     ar := ar self;
     hit_length := hit_length self;
     last_update := last_update self;
     max_combo := max_combo self;
     bpm := bpm self;
     filename := filename self;
     frozen := frozen self;
     rankedby := v;
     rating := rating self;
     bancho_ranked_status := bancho_ranked_status self;
     count_circles := count_circles self;
     count_sliders := count_sliders self;
     count_spinners := count_spinners self
  |}.

Definition set_status (v : RankedStatus) (self : Beatmap) : Beatmap :=
  {|
     md5 := md5 self;
     id := id self;
     set_id := set_id self;
     song_name := song_name self;
     status := v;
     plays := plays self;
     passes := passes self;
     mode := mode self;
     od := od self;
     ar := ar self;
     hit_length := hit_length self;
     last_update := last_update self;
     max_combo := max_combo self;
     bpm := bpm self;
     filename := filename self;
     frozen := frozen self;
     rankedby := rankedby self;
     rating := rating self;
     bancho_ranked_status := bancho_ranked_status self;
     count_circles := count_circles self;
     count_sliders := count_sliders self;
     count_spinners := count_spinners self
  |}.

Definition set_frozen (v : bool) (self : Beatmap) : Beatmap :=
  {|
     md5 := md5 self;
     id := id self;
     set_id := set_id self;
     song_name := song_name self;
     status := status self;
     plays := plays self;
     passes := passes self;
     mode := mode self;
     od := od self;
     ar := ar self;
     hit_length := hit_length self;
     last_update := last_update self;
     max_combo := max_combo self;
     bpm := bpm self;
     filename := filename self;
     frozen := v;
     rankedby := rankedby self;
     rating := rating self;
     bancho_ranked_status := bancho_ranked_status self;
     count_circles := count_circles self;
     count_sliders := count_sliders self;
     count_spinners := count_spinners self
  |}.

Definition set_last_update (v : Z) (self : Beatmap) : Beatmap :=
  {|
     md5 := md5 self;
     id := id self;
     set_id := set_id self;
     song_name := song_name self;
     status := status self;
     plays := plays self;
     passes := passes self;
     mode := mode self;
     od := od self;
     ar := ar self;
     hit_length := hit_length self;
     last_update := v;
     max_combo := max_combo self;
     bpm := bpm self;
     filename := filename self;
     frozen := frozen self;
     rankedby := rankedby self;
     rating := rating self;
     bancho_ranked_status := bancho_ranked_status self;
     count_circles := count_circles self;
     count_sliders := count_sliders self;
     count_spinners := count_spinners self
  |}.

(** *** What the code reaches outside of the source files *)

(** An HTTP response of [app.state.services.http_client]: its status
    code, what [raise_for_status()] does and what [json()] returns (the
    API answers with a list of flat objects). *)
Record Response : Type := {
  status_code : Z;
  raise_for_status : Result ();
  json : Result (list (gmap string Value));
}.

(** The environment of one call: the clock (its successive readings, in
    Unix time), the local time zone (its offset from UTC, in seconds, at
    each Unix time), the configuration, the draw of [random.choice], the osu!
    API behind the HTTP client, the Python built-ins applied to API
    values, and [RankedStatus.from_osu_api], the translation table of
    [app/constants/ranked_status.py], which is not among the sources. *)
Record Env : Type := {
  clock : nat → Z;
  utcoffset : Z → Z;
  API_KEYS_POOL : list string;
  random_draw : nat;
  http_client_get : string → gmap string Value → Result Response;
  py_int : Value → Result Z;
  py_float : Value → Result float;
  py_round : float → Result Z;
  py_str : Value → string;
  from_osu_api : Z → Result RankedStatus;
}.

Inductive SQL : Type :=
| DELETE_FROM_beatmaps_WHERE_beatmap_md5
| REPLACE_INTO_beatmaps.

(** One call of [app.usecases.discord.beatmap_status_change].  The call is
    handed the two objects themselves, and [update_beatmap] goes on to assign
    to the second; the record keeps the two beatmaps as they are when the
    call is made. *)
Record StatusChange : Type := {
  old_beatmap : Beatmap;
  new_beatmap : Beatmap;
  action_taken : string;
}.

(** What a call leaves behind: how many times the clock was read, the
    statements given to [database.execute] and the notifications, both
    oldest first. *)
Record State : Type := {
  ticks : nat;
  executed : list (SQL * gmap string Value);
  discord : list StatusChange;
}.

(** Code with effects: it reads the environment, changes the state and
    returns or raises; the state reached is kept when it raises. *)
Definition M (A : Type) : Type := Env → State → Result A * State.

Definition ret {A} (a : A) : M A := fun _ s => (Return a, s).

Definition bind {A B} (m : M A) (k : A → M B) : M B :=
  fun env s =>
    match m env s with
    | (Return a, s') => k a env s'
    | (Raise e, s') => (Raise e, s')
    end.

Definition lift {A} (r : Result A) : M A := fun _ s => (r, s).

Definition raise {A} (e : Exception) : M A := lift (Raise e).

Definition ask : M Env := fun env s => (Return env, s).

Declare Scope py_scope.
Delimit Scope py_scope with py.
Notation "x <- m ;; k" := (bind m (fun x => k))
  (at level 100, m at next level, k at level 200, right associativity,
   format "'[v' x  <-  m ;; '/' k ']'") : py_scope.
Notation "m ;; k" := (bind m (fun _ => k))
  (at level 100, k at level 200, right associativity,
   format "'[v' m ;; '/' k ']'") : py_scope.
Local Open Scope py_scope.

(** [int(time.time())]: the next reading of the clock. *)
Definition tick (s : State) : State :=
  {| ticks := S (ticks s); executed := executed s; discord := discord s |}.

Definition time_time : M Z :=
  fun env s => (Return (clock env (ticks s)), tick s).

(** [await app.state.services.database.execute(query, values)]; the
    database is taken to accept the statement. *)
Definition database_execute (query : SQL) (values : gmap string Value) : M () :=
  fun _ s =>
    (Return (),
     {| ticks := ticks s;
        executed := executed s ++ [(query, values)];
        discord := discord s |}).

Definition beatmap_status_change (old_beatmap new_beatmap : Beatmap)
    (action_taken : string) : M () :=
  fun _ s =>
    (Return (),
     {| ticks := ticks s;
        executed := executed s;
        discord := discord s ++
          [{| old_beatmap := old_beatmap; new_beatmap := new_beatmap;
              action_taken := action_taken |}] |}).

(** [random.choice(seq)]: [IndexError] on an empty sequence. *)
Definition random_choice (seq : list string) : M string :=
  env <- ask ;;
  match seq !! (random_draw env mod length seq)%nat with
  | Some x => ret x
  | None => raise IndexError
  end.

(** The truth value of an API value, as [if value:] takes it. *)
Definition truthy (v : Value) : bool :=
  match v with
  | VNone => false
  | VBool b => b
  | VInt n => negb (n =? 0)
  | VFloat x => negb (PrimFloat.eqb x 0)
  | VStr s => negb (String.eqb s "")
  end.

(** [mapping.get(key)] *)
Definition get (mapping : gmap string Value) (key : string) : Value :=
  default VNone (mapping !! key).

(** The property [deserves_update] of the dataclass.  The body of
    [_should_get_updates] reads the clock after it has matched the status:
    when it raises, the clock has not been read. *)
Definition deserves_update (self : Beatmap) : M bool :=
  fun env s =>
    match Model._should_get_updates (value (status self))
            (Model.fromtimestamp (utcoffset env) (last_update self))
            (Model.fromtimestamp (utcoffset env) (clock env (ticks s))) with
    | Return due => (Return due, tick s)
    | Raise e => (Raise e, s)
    end.

Definition GET_BEATMAP_URL : string := "https://old.ppy.sh/api/get_beatmaps".

(** [save]: one [REPLACE INTO beatmaps] with these named values. *)
Definition save_values (beatmap : Beatmap) : gmap string Value :=
  list_to_map [
    ("beatmap_id", VInt (id beatmap));
    ("beatmapset_id", VInt (set_id beatmap));
    ("beatmap_md5", VStr (md5 beatmap));
    ("song_name", VStr (song_name beatmap));
    ("ar", VFloat (ar beatmap));
    ("od", VFloat (od beatmap));
    ("mode", VInt (ModeEnum.value (mode beatmap)));
    ("rating", of_optional_float (rating beatmap));
    ("max_combo", VInt (max_combo beatmap));
    ("hit_length", VInt (hit_length beatmap));
    ("bpm", VInt (bpm beatmap));
    ("playcount", VInt (plays beatmap));
    ("passcount", VInt (passes beatmap));
    ("ranked", VInt (value (status beatmap)));
    ("latest_update", VInt (last_update beatmap));
    ("ranked_status_freezed", VBool (frozen beatmap));
    ("file_name", VStr (filename beatmap));
    ("rankedby", of_optional_int (rankedby beatmap));
    ("bancho_ranked_status",
      match bancho_ranked_status beatmap with
      | Some st => VInt (value st)
      | None => VNone
      end);
    ("count_circles", VInt (count_circles beatmap));
    ("count_sliders", VInt (count_sliders beatmap));
    ("count_spinners", VInt (count_spinners beatmap))
  ].

Definition save (beatmap : Beatmap) : M () :=
  database_execute REPLACE_INTO_beatmaps (save_values beatmap).

Definition delete_values (old_md5 : string) : gmap string Value :=
  {[ "old_md5" := VStr old_md5 ]}.

(** The keys of the table given to [str.translate], which deletes them:
    colon, backslash, slash, star, the angle brackets, question mark,
    double quote (character 34) and bar. *)
Definition IGNORED_BEATMAP_CHARS : list ascii :=
  [":"; "\"; "/"; "*"; "<"; ">"; "?"; "034"; "|"]%char.

Fixpoint translate (s : string) (table : list ascii) : string :=
  match s with
  | EmptyString => EmptyString
  | String c rest =>
      if existsb (Ascii.eqb c) table then translate rest table
      else String c (translate rest table)
  end.

Definition FROZEN_STATUSES : list RankedStatus := [RANKED; APPROVED; LOVED].

(** A replacement field [{key}] of [str.format], which is given the keys
    of [response_json] as keyword arguments. *)
Definition format_field (response_json : gmap string Value) (key : string)
    : M string :=
  env <- ask ;;
  v <- lift (getitem response_json key) ;;
  ret (py_str env v).

(** [int(response_json[key])] and [float(response_json[key])] *)
Definition int_item (response_json : gmap string Value) (key : string) : M Z :=
  env <- ask ;;
  v <- lift (getitem response_json key) ;;
  lift (py_int env v).

Definition float_item (response_json : gmap string Value) (key : string)
    : M float :=
  env <- ask ;;
  v <- lift (getitem response_json key) ;;
  lift (py_float env v).

(** The body of the loop of [parse_from_osu_api]: the beatmap of one
    object of the response. *)
Definition parse_one (response_json : gmap string Value) : M Beatmap :=
  env <- ask ;;
  md5 <- lift (Result_bind (getitem response_json "file_md5") as_str) ;;
  id <- int_item response_json "beatmap_id" ;;
  set_id <- int_item response_json "beatmapset_id" ;;
  artist <- format_field response_json "artist" ;;
  title <- format_field response_json "title" ;;
  creator <- format_field response_json "creator" ;;
  version <- format_field response_json "version" ;;
  let filename :=
    translate (artist ++ " - " ++ title ++ " (" ++ creator ++ ") ["
               ++ version ++ "].osu")%string IGNORED_BEATMAP_CHARS in
  artist <- format_field response_json "artist" ;;
  title <- format_field response_json "title" ;;
  version <- format_field response_json "version" ;;
  let song_name :=
    translate (artist ++ " - " ++ title ++ " [" ++ version ++ "]")%string
              IGNORED_BEATMAP_CHARS in
  hit_length <- int_item response_json "hit_length" ;;
  max_combo <-
    (let _max_combo := get response_json "max_combo" in
     if truthy _max_combo then lift (py_int env _max_combo) else ret 0) ;;
  approved <- int_item response_json "approved" ;;
  bancho_ranked_status <- lift (from_osu_api env approved) ;;
  let frozen := bool_decide (bancho_ranked_status ∈ FROZEN_STATUSES) in
  mode_value <- int_item response_json "mode" ;;
  mode <- lift (ModeEnum.call mode_value) ;;
  bpm <-
    (let _bpm := get response_json "bpm" in
     if truthy _bpm then
       x <- lift (py_float env _bpm) ;;
       lift (py_round env x)
     else ret 0) ;;
  od <- float_item response_json "diff_overall" ;;
  ar <- float_item response_json "diff_approach" ;;
  count_circles <- int_item response_json "count_circles" ;;
  count_sliders <- int_item response_json "count_sliders" ;;
  count_spinners <- int_item response_json "count_spinners" ;;
  now <- time_time ;;
  ret {|
    md5 := md5;
    id := id;
    set_id := set_id;
    song_name := song_name;
    status := bancho_ranked_status;
    plays := 0;
    passes := 0;
    mode := mode;
    od := od;
    ar := ar;
    hit_length := hit_length;
    last_update := now;
    max_combo := max_combo;
    bpm := bpm;
    filename := filename;
    frozen := frozen;
    rankedby := None;
    rating := Some 10%float;
    bancho_ranked_status := Some bancho_ranked_status;
    count_circles := count_circles;
    count_sliders := count_sliders;
    count_spinners := count_spinners
  |}.

(** [for response_json in response_json_list: ... maps.append(...)] *)
Fixpoint parse_loop (response_json_list : list (gmap string Value))
    (maps : list Beatmap) : M (list Beatmap) :=
  match response_json_list with
  | [] => ret maps
  | response_json :: rest =>
      beatmap <- parse_one response_json ;;
      parse_loop rest (maps ++ [beatmap])
  end.

Definition parse_from_osu_api (response_json_list : list (gmap string Value))
    : M (list Beatmap) :=
  parse_loop response_json_list [].

(** [for beatmap in beatmaps: await save(beatmap)] *)
Fixpoint save_all (beatmaps : list Beatmap) : M () :=
  match beatmaps with
  | [] => ret ()
  | beatmap :: rest => save beatmap ;; save_all rest
  end.

Definition id_from_api (id' : Z) (is_definitely_new_beatmap : bool)
    : M (option Beatmap) :=
  env <- ask ;;
  api_key <- random_choice (API_KEYS_POOL env) ;;
  response <- lift (http_client_get env GET_BEATMAP_URL
                      (list_to_map [("k", VStr api_key); ("b", VInt id')])) ;;
  if status_code response =? 404 then ret None
  else if status_code response =? 403 then raise (ValueError "osu api is down")
  else
    lift (raise_for_status response) ;;
    response_json <- lift (json response) ;;
    match response_json with
    | [] => ret None
    | _ =>
        beatmaps <- parse_from_osu_api response_json ;;
        (if is_definitely_new_beatmap then save_all beatmaps else ret ()) ;;
        ret (List.find (fun beatmap => id beatmap =? id') beatmaps)
    end.

(** The three blocks of assignments of [update_beatmap]: the [else] of
    the md5 test, the branch [if beatmap.frozen] and the end of the branch
    that sends ["frozen"]. *)
Definition keep_stats (beatmap new_beatmap : Beatmap) : Beatmap :=
  let new_beatmap := set_plays (plays beatmap) new_beatmap in
  let new_beatmap := set_passes (passes beatmap) new_beatmap in
  let new_beatmap := set_rating (rating beatmap) new_beatmap in
  let new_beatmap := set_rankedby (rankedby beatmap) new_beatmap in
  new_beatmap.

Definition force_old_status (beatmap new_beatmap : Beatmap) : Beatmap :=
  let new_beatmap := set_status (status beatmap) new_beatmap in
  let new_beatmap := set_frozen true new_beatmap in
  let new_beatmap := set_rankedby (rankedby beatmap) new_beatmap in
  new_beatmap.

Definition freeze (beatmap new_beatmap : Beatmap) : Beatmap :=
  let new_beatmap := set_status (status beatmap) new_beatmap in
  let new_beatmap := set_frozen true new_beatmap in
  new_beatmap.

(** The test of the branch that sends ["frozen"]. *)
Definition lost_status (beatmap new_beatmap : Beatmap) : bool :=
  bool_decide (status new_beatmap = PENDING)
  && bool_decide (status beatmap ∈ [RANKED; APPROVED; LOVED]).

Definition update_beatmap (beatmap : Beatmap) : M (option Beatmap) :=
  due <- deserves_update beatmap ;;
  if negb due then ret (Some beatmap)
  else
    fetched <- id_from_api (id beatmap) false ;;
    match fetched with
    | None =>
        (* it's now unsubmitted! *)
        database_execute DELETE_FROM_beatmaps_WHERE_beatmap_md5
                         (delete_values (md5 beatmap)) ;;
        ret None
    | Some new_beatmap =>
        (* handle deleting the old beatmap etc. *)
        new_beatmap <-
          (if negb (String.eqb (md5 new_beatmap) (md5 beatmap)) then
             (* delete any instances of the old map *)
             database_execute DELETE_FROM_beatmaps_WHERE_beatmap_md5
                              (delete_values (md5 beatmap)) ;;
             ret new_beatmap
           else
             (* keep our stats *)
             ret (keep_stats beatmap new_beatmap)) ;;
        new_beatmap <-
          (if frozen beatmap then
             (* force the old status on the new version *)
             ret (force_old_status beatmap new_beatmap)
           else if negb (bool_decide (status beatmap = status new_beatmap)) then
             if lost_status beatmap new_beatmap then
               beatmap_status_change beatmap new_beatmap "frozen" ;;
               ret (freeze beatmap new_beatmap)
             else
               beatmap_status_change beatmap new_beatmap "status_change" ;;
               ret new_beatmap
           else ret new_beatmap) ;;
        now <- time_time ;;
        let new_beatmap := set_last_update now new_beatmap in
        save new_beatmap ;;
        ret (Some new_beatmap)
    end.

(** [md5_from_api] *)
Definition md5_from_api (md5' : string) (is_definitely_new_beatmap : bool)
    : M (option Beatmap) :=
  env <- ask ;;
  api_key <- random_choice (API_KEYS_POOL env) ;;
  response <- lift (http_client_get env GET_BEATMAP_URL
                      (list_to_map [("k", VStr api_key); ("h", VStr md5')])) ;;
  if status_code response =? 404 then ret None
  else if status_code response =? 403 then raise (ValueError "osu api is down")
  else
    lift (raise_for_status response) ;;
    response_json <- lift (json response) ;;
    match response_json with
    | [] => ret None
    | _ =>
        beatmaps <- parse_from_osu_api response_json ;;
        (if is_definitely_new_beatmap then save_all beatmaps else ret ()) ;;
        ret (List.find (fun beatmap => String.eqb (md5 beatmap) md5') beatmaps)
    end.

(** [set_from_api]; the flag is [True] when the caller gives none. *)
Definition set_from_api (id' : Z) (is_definitely_new_beatmapset : bool)
    : M (option (list Beatmap)) :=
  env <- ask ;;
  api_key <- random_choice (API_KEYS_POOL env) ;;
  response <- lift (http_client_get env GET_BEATMAP_URL
                      (list_to_map [("k", VStr api_key); ("s", VInt id')])) ;;
  if status_code response =? 404 then ret None
  else if status_code response =? 403 then raise (ValueError "osu api is down")
  else
    lift (raise_for_status response) ;;
    response_json <- lift (json response) ;;
    match response_json with
    | [] => ret None
    | _ =>
        beatmaps <- parse_from_osu_api response_json ;;
        (if is_definitely_new_beatmapset then save_all beatmaps else ret ()) ;;
        ret (Some beatmaps)
    end.

(** The two queries given to [database.fetch_one]. *)
Inductive SELECT : Type :=
| SELECT_FROM_beatmaps_WHERE_beatmap_md5
| SELECT_FROM_beatmaps_WHERE_beatmap_id.

(** [await app.state.services.database.fetch_one(query, values)]: the row
    the database answers with, if any.  What it answers is a matter of the
    database, so the functions that read are given it as [fetch_one]. *)
Definition FetchOne : Type :=
  SELECT → gmap string Value → option (gmap string Value).

(** [md5_from_database] and [id_from_database].  [if not db_result] holds
    of [None] and of a mapping with no key.  [Beatmap.from_mapping] is the
    class method of [src/app/models/beatmap.py] and builds the dataclass
    declared there. *)
Definition md5_from_database (fetch_one : FetchOne) (md5' : string)
    : M (option Model.Beatmap) :=
  match fetch_one SELECT_FROM_beatmaps_WHERE_beatmap_md5
          {[ "md5" := VStr md5' ]} with
  | None => ret None
  | Some db_result =>
      if bool_decide (db_result = ∅) then ret None
      else
        beatmap <- lift (Model.from_mapping db_result) ;;
        ret (Some beatmap)
  end.

Definition id_from_database (fetch_one : FetchOne) (id' : Z)
    : M (option Model.Beatmap) :=
  match fetch_one SELECT_FROM_beatmaps_WHERE_beatmap_id
          {[ "id" := VInt id' ]} with
  | None => ret None
  | Some db_result =>
      if bool_decide (db_result = ∅) then ret None
      else
        beatmap <- lift (Model.from_mapping db_result) ;;
        ret (Some beatmap)
  end.

(** [fetch_by_md5] and [fetch_by_id].  A beatmap object is always true in
    [if beatmap := ...].  The beatmap returned is the one read from the
    database (left) or the one parsed from the API (right). *)
Definition fetch_by_md5 (fetch_one : FetchOne) (md5' : string)
    : M (option (Model.Beatmap + Beatmap)) :=
  from_database <- md5_from_database fetch_one md5' ;;
  match from_database with
  | Some beatmap => ret (Some (inl beatmap))
  | None =>
      from_api <- md5_from_api md5' true ;;
      match from_api with
      | Some beatmap => ret (Some (inr beatmap))
      | None => ret None
      end
  end.

Definition fetch_by_id (fetch_one : FetchOne) (id' : Z)
    : M (option (Model.Beatmap + Beatmap)) :=
  from_database <- id_from_database fetch_one id' ;;
  match from_database with
  | Some beatmap => ret (Some (inl beatmap))
  | None =>
      from_api <- id_from_api id' true ;;
      match from_api with
      | Some beatmap => ret (Some (inr beatmap))
      | None => ret None
      end
  end.

(** The statement of [increment_playcount]. *)
Inductive UPDATE : Type :=
| UPDATE_beatmaps_SET_passcount_playcount_WHERE_beatmap_md5.

(** [increment_playcount]: the beatmap after the two assignments, and the
    statement given to [database.execute] with its values.  The caller's
    object is the one assigned to; here it is the beatmap returned. *)
Definition increment_playcount (beatmap : Beatmap) (increment_passcount : bool)
    : Beatmap * (UPDATE * gmap string Value) :=
  let beatmap := set_plays (plays beatmap + 1) beatmap in
  let beatmap :=
    if increment_passcount then set_passes (passes beatmap + 1) beatmap
    else beatmap in
  (beatmap,
   (UPDATE_beatmaps_SET_passcount_playcount_WHERE_beatmap_md5,
    list_to_map [
      ("passcount_increment", VInt (if increment_passcount then 1 else 0));
      ("md5", VStr (md5 beatmap))
    ])).

End Usecases.

(** ** The vocabulary of the specification *)

(** The refresh interval of the staleness policy, in seconds, as the
    specification tabulates it: Qualified 5 min, Pending 10 min, Loved 1 day,
    Ranked and Approved 1 day; no interval for the other statuses. *)
Definition spec_interval (s : Status) : option Z :=
  match s with
  | QUALIFIED => Some (5 * 60)
  | PENDING => Some (10 * 60)
  | LOVED => Some 86400
  | RANKED | APPROVED => Some 86400
  | NOT_SUBMITTED | UPDATE_AVAILABLE => None
  end.

(** Modelled from the spec: the table [beatmaps] behind
    [app.state.services.database] is not among the sources.  The glossary
    makes the checksum its primary key, so the store is a map from
    [beatmap_md5] to rows; [DELETE ... WHERE beatmap_md5 = :old_md5] removes
    the row of that key and [REPLACE INTO] writes the row of its
    [beatmap_md5], replacing the one that was there. *)
Definition run_statement (store : gmap string (gmap string Value))
    (statement : Usecases.SQL * gmap string Value)
    : gmap string (gmap string Value) :=
  match statement with
  | (Usecases.DELETE_FROM_beatmaps_WHERE_beatmap_md5, values) =>
      match values !! "old_md5" with
      | Some (VStr old_md5) => delete old_md5 store
      | _ => store
      end
  | (Usecases.REPLACE_INTO_beatmaps, values) =>
      match values !! "beatmap_md5" with
      | Some (VStr beatmap_md5) => <[beatmap_md5 := values]> store
      | _ => store
      end
  end.

Definition run_statements (store : gmap string (gmap string Value))
    (statements : list (Usecases.SQL * gmap string Value))
    : gmap string (gmap string Value) :=
  foldl run_statement store statements.

(** Modelled from the spec: on the same store, the statement of
    [increment_playcount] adds [passcount_increment] to [passcount] and 1
    to [playcount] in the row of the given checksum, and changes no other
    row. *)
Definition add_to_column (column : string) (n : Z) (row : gmap string Value)
    : gmap string Value :=
  match row !! column with
  | Some (VInt v) => <[column := VInt (v + n)]> row
  | _ => row
  end.

Definition run_update (store : gmap string (gmap string Value))
    (statement : Usecases.UPDATE * gmap string Value)
    : gmap string (gmap string Value) :=
  match statement.2 !! "md5", statement.2 !! "passcount_increment" with
  | Some (VStr beatmap_md5), Some (VInt passcount_increment) =>
      alter (fun row =>
               add_to_column "playcount" 1
                 (add_to_column "passcount" passcount_increment row))
            beatmap_md5 store
  | _, _ => store
  end.

(** [reconciles b b']: [b'] is what a sequence of calls of [update_beatmap]
    makes of [b], each call in an environment and a state of its own and
    each returning a beatmap, which the next call is given. *)
Inductive reconciles : Usecases.Beatmap → Usecases.Beatmap → Prop :=
| reconciles_nil b : reconciles b b
| reconciles_cons b b' b'' env s s' :
    Usecases.update_beatmap b env s = (Return (Some b'), s') →
    reconciles b' b'' →
    reconciles b b''.

(** [quiet m]: the computation [m] executes no statement and sends no
    notification, whether it returns or raises; it may read the clock. *)
Definition quiet {A} (m : Usecases.M A) : Prop :=
  ∀ env s,
    Usecases.executed (m env s).2 = Usecases.executed s
    ∧ Usecases.discord (m env s).2 = Usecases.discord s
    ∧ (Usecases.ticks s ≤ Usecases.ticks (m env s).2)%nat.

(** [fresh_at env now r b]: the beatmap [b] is as [parse_from_osu_api]
    builds it from the object [r] of the API at the clock reading [now]. *)
Record fresh_at (env : Usecases.Env) (now : Z) (r : gmap string Value)
    (b : Usecases.Beatmap) : Prop := {
  fresh_plays : Usecases.plays b = 0;
  fresh_passes : Usecases.passes b = 0;
  fresh_rating : Usecases.rating b = Some 10%float;
  fresh_rankedby : Usecases.rankedby b = None;
  fresh_last_update : Usecases.last_update b = now;
  fresh_status :
    Result_bind (Result_bind (getitem r "approved") (Usecases.py_int env))
                (Usecases.from_osu_api env)
    = Return (Usecases.status b);
  fresh_frozen :
    Usecases.frozen b = true ↔ Usecases.status b ∈ [RANKED; APPROVED; LOVED];
}.

(** The keys that [parse_from_osu_api] reads with [response_json[key]] (or
    as a replacement field of a template); [max_combo] and [bpm] are read
    with [get]. *)
Definition required_keys : list string :=
  ["file_md5"; "beatmap_id"; "beatmapset_id"; "artist"; "title"; "creator";
   "version"; "hit_length"; "approved"; "mode"; "diff_overall";
   "diff_approach"; "count_circles"; "count_sliders"; "count_spinners"].

(** [parsed_from env r b]: where the attributes of a beatmap [b] parsed
    from the object [r] come from. *)
Record parsed_from (env : Usecases.Env) (r : gmap string Value)
    (b : Usecases.Beatmap) : Prop := {
  parsed_keys : ∀ key, key ∈ required_keys → is_Some (r !! key);
  parsed_md5 : r !! "file_md5" = Some (VStr (Usecases.md5 b));
  parsed_id :
    Result_bind (getitem r "beatmap_id") (Usecases.py_int env)
    = Return (Usecases.id b);
  parsed_set_id :
    Result_bind (getitem r "beatmapset_id") (Usecases.py_int env)
    = Return (Usecases.set_id b);
  parsed_max_combo :
    (if Usecases.truthy (Usecases.get r "max_combo")
     then Usecases.py_int env (Usecases.get r "max_combo")
     else Return 0)
    = Return (Usecases.max_combo b);
  parsed_bpm :
    (if Usecases.truthy (Usecases.get r "bpm")
     then Result_bind (Usecases.py_float env (Usecases.get r "bpm"))
            (Usecases.py_round env)
     else Return 0)
    = Return (Usecases.bpm b);
  parsed_bancho_ranked_status :
    Usecases.bancho_ranked_status b = Some (Usecases.status b);
  parsed_filename :
    ∃ text, Usecases.filename b
            = Usecases.translate text Usecases.IGNORED_BEATMAP_CHARS;
  parsed_song_name :
    ∃ text, Usecases.song_name b
            = Usecases.translate text Usecases.IGNORED_BEATMAP_CHARS;
}.

Section RequestShape.

Import Usecases.
Local Open Scope py_scope.

(** The body that [md5_from_api], [id_from_api] and [set_from_api] have in
    common: they differ in the parameter of the request that names what is
    asked for ([query]) and in what they return from the parsed beatmaps
    ([finish]). *)
Definition get_beatmaps {R : Type} (query : string * Value) (save_them : bool)
    (finish : list Beatmap → option R) : M (option R) :=
  env <- ask ;;
  api_key <- random_choice (API_KEYS_POOL env) ;;
  response <- lift (http_client_get env GET_BEATMAP_URL
                      (list_to_map [("k", VStr api_key); query])) ;;
  if status_code response =? 404 then ret None
  else if status_code response =? 403 then raise (ValueError "osu api is down")
  else
    lift (raise_for_status response) ;;
    response_json <- lift (json response) ;;
    match response_json with
    | [] => ret None
    | _ =>
        beatmaps <- parse_from_osu_api response_json ;;
        (if save_them then save_all beatmaps else ret ()) ;;
        ret (finish beatmaps)
    end.

(** The statements of [save] for a list of beatmaps, in their order. *)
Definition saves (beatmaps : list Beatmap) : list (SQL * gmap string Value) :=
  map (fun beatmap => (REPLACE_INTO_beatmaps, save_values beatmap)) beatmaps.

End RequestShape.

(** ** A concrete run

    An environment in which the definitions above evaluate: a clock that
    starts at [epoch] and advances by one second at each reading, a server
    on UTC or in the zone of Paris, an API
    that answers every request with the given objects, and the built-ins
    on the values the API sends (decimal strings).  The theorems below hold
    in every environment; this one instantiates them. *)

Module Scenario.

Import Usecases.

Fixpoint digits (s : string) (acc : Z) : Result Z :=
  match s with
  | EmptyString => Return acc
  | String c rest =>
      let d := Z.of_nat (nat_of_ascii c) - 48 in
      if (0 <=? d) && (d <=? 9) then digits rest (10 * acc + d)
      else Raise (ValueError "invalid literal")
  end.

Definition int_of_str (s : string) : Result Z :=
  match s with
  | EmptyString => Raise (ValueError "invalid literal")
  | String "-" rest =>
      match rest with
      | EmptyString => Raise (ValueError "invalid literal")
      | _ => Result_bind (digits rest 0) (fun n => Return (- n))
      end
  | _ => digits s 0
  end.

Definition sample_int (v : Value) : Result Z :=
  match v with
  | VInt n => Return n
  | VBool b => Return (if b then 1 else 0)
  | VStr s => int_of_str s
  | _ => Raise (TypeError "int()")
  end.

Definition float_of_Z (n : Z) : float :=
  if n <? 0 then PrimFloat.opp (PrimFloat.of_uint63 (Uint63Axioms.of_Z (- n)))
  else PrimFloat.of_uint63 (Uint63Axioms.of_Z n).

Definition sample_float (v : Value) : Result float :=
  match v with
  | VFloat x => Return x
  | VInt n => Return (float_of_Z n)
  | VStr s => Result_bind (int_of_str s) (fun n => Return (float_of_Z n))
  | _ => Raise (TypeError "float()")
  end.

Definition sample_round (x : float) : Result Z :=
  match Prim2SF x with
  | S754_zero _ => Return 0
  | S754_finite sign m e =>
      let magnitude :=
        if 0 <=? e then Z.pos m * 2 ^ e
        else
          let q := Z.pos m / 2 ^ (- e) in
          let r := 2 * (Z.pos m mod 2 ^ (- e)) in
          if r <? 2 ^ (- e) then q
          else if 2 ^ (- e) <? r then q + 1
          else if Z.even q then q else q + 1 in
      Return (if sign then - magnitude else magnitude)
  | S754_infinity _ => Raise (OtherError "OverflowError")
  | S754_nan => Raise (ValueError "cannot convert float NaN to integer")
  end.

Definition sample_str (v : Value) : string :=
  match v with
  | VStr s => s
  | VNone => "None"
  | VBool true => "True"
  | VBool false => "False"
  | _ => "?"
  end.

Definition sample_from_osu_api (n : Z) : Result RankedStatus :=
  if n =? 1 then Return RANKED
  else if n =? 2 then Return APPROVED
  else if n =? 3 then Return QUALIFIED
  else if n =? 4 then Return LOVED
  else if (-2 <=? n) && (n <=? 0) then Return PENDING
  else Raise (KeyError "from_osu_api").

Definition record (file_md5 approved : string) : gmap string Value :=
  list_to_map [
    ("file_md5", VStr file_md5);
    ("beatmap_id", VStr "42");
    ("beatmapset_id", VStr "7");
    ("artist", VStr "xi");
    ("title", VStr "FREEDOM DiVE?");
    ("creator", VStr "Nakagawa-Kanon");
    ("version", VStr "FOUR DIMENSIONS");
    ("hit_length", VStr "259");
    ("max_combo", VStr "2385");
    ("approved", VStr approved);
    ("mode", VStr "0");
    ("bpm", VStr "222");
    ("diff_overall", VStr "8");
    ("diff_approach", VStr "9");
    ("count_circles", VStr "1646");
    ("count_sliders", VStr "343");
    ("count_spinners", VStr "0")
  ].

(** A server whose local time is UTC. *)
Definition utc (timestamp : Z) : Z := 0.

(** The zone Europe/Paris in 2023: one hour ahead of UTC, and two hours
    from 2023-03-26 01:00:00 UTC (Unix time 1679792400) to 2023-10-29
    01:00:00 UTC (Unix time 1698541200). *)
Definition europe_paris (timestamp : Z) : Z :=
  if (1679792400 <=? timestamp) && (timestamp <? 1698541200) then 7200
  else 3600.

Definition env_in (zone : Z → Z) (epoch : Z)
    (response_json : list (gmap string Value)) : Env :=
  {|
    clock := fun k => epoch + Z.of_nat k;
    utcoffset := zone;
    API_KEYS_POOL := ["key"];
    random_draw := 0;
    http_client_get := fun _ _ =>
      Return {| status_code := 200;
                raise_for_status := Return ();
                json := Return response_json |};
    py_int := sample_int;
    py_float := sample_float;
    py_round := sample_round;
    py_str := sample_str;
    from_osu_api := sample_from_osu_api
  |}.

Definition env (epoch : Z) (response_json : list (gmap string Value)) : Env :=
  env_in utc epoch response_json.

Definition start : State := {| ticks := 0; executed := []; discord := [] |}.

Definition old (md5' : string) (status' : RankedStatus) (frozen' : bool)
    : Beatmap :=
  {|
    md5 := md5'; id := 42; set_id := 7;
    song_name := "xi - FREEDOM DiVE [FOUR DIMENSIONS]";
    status := status'; plays := 50; passes := 20; mode := STD;
    od := 8; ar := 9; hit_length := 259;
    last_update := 1600000000;
    max_combo := 2385; bpm := 222;
    filename := "xi - FREEDOM DiVE (Nakagawa-Kanon) [FOUR DIMENSIONS].osu";
    frozen := frozen'; rankedby := Some 1001; rating := Some 7.5%float;
    bancho_ranked_status := Some status';
    count_circles := 1646; count_sliders := 343; count_spinners := 0
  |}.

(** The beatmap parsed from [record file_md5 approved], where [approved]
    translates to [status'], at the clock reading [now]. *)
Definition candidate (file_md5 : string) (status' : RankedStatus) (now : Z)
    : Beatmap :=
  {|
    md5 := file_md5; id := 42; set_id := 7;
    song_name := "xi - FREEDOM DiVE [FOUR DIMENSIONS]";
    status := status'; plays := 0; passes := 0; mode := STD;
    od := 8; ar := 9; hit_length := 259;
    last_update := now;
    max_combo := 2385; bpm := 222;
    filename := "xi - FREEDOM DiVE (Nakagawa-Kanon) [FOUR DIMENSIONS].osu";
    frozen := bool_decide (status' ∈ FROZEN_STATUSES);
    rankedby := None; rating := Some 10%float;
    bancho_ranked_status := Some status';
    count_circles := 1646; count_sliders := 343; count_spinners := 0
  |}.

(** The same environment with an API that answers every request with the
    given status code and, from [raise_for_status], the given result. *)
Definition env_status (code : Z) (raised : Result ())
    (response_json : list (gmap string Value)) : Env :=
  {|
    clock := fun k => 1700000000 + Z.of_nat k;
    utcoffset := utc;
    API_KEYS_POOL := ["key"];
    random_draw := 0;
    http_client_get := fun _ _ =>
      Return {| status_code := code;
                raise_for_status := raised;
                json := Return response_json |};
    py_int := sample_int;
    py_float := sample_float;
    py_round := sample_round;
    py_str := sample_str;
    from_osu_api := sample_from_osu_api
  |}.

(** The same environment with no API key configured. *)
Definition env_no_key : Env :=
  {|
    clock := fun k => 1700000000 + Z.of_nat k;
    utcoffset := utc;
    API_KEYS_POOL := [];
    random_draw := 0;
    http_client_get := fun _ _ => Raise (OtherError "no request expected");
    py_int := sample_int;
    py_float := sample_float;
    py_round := sample_round;
    py_str := sample_str;
    from_osu_api := sample_from_osu_api
  |}.

(** A beatmap of the dataclass with the given status and [last_update]. *)
Definition entry (status' : RankedStatus) (last_update' : Z) : Model.Beatmap :=
  {|
    Model.md5 := "A"; Model.id := 42; Model.set_id := 7;
    Model.song_name := "xi - FREEDOM DiVE [FOUR DIMENSIONS]";
    Model.status := status'; Model.plays := 50; Model.passes := 20;
    Model.mode := STD; Model.od := 8; Model.ar := 9;
    Model.difficulty_std := 7.5; Model.difficulty_taiko := 0;
    Model.difficulty_ctb := 0; Model.difficulty_mania := 0;
    Model.hit_length := 259; Model.last_update := last_update';
    Model.max_combo := 2385; Model.bpm := 222;
    Model.filename := "xi - FREEDOM DiVE (Nakagawa-Kanon) [FOUR DIMENSIONS].osu";
    Model.frozen := false; Model.rating := Some 7.5%float
  |}.

(** A beatmap of the dataclass, and a database that holds its row, with
    one more column, under its checksum and its id. *)
Definition stored : Model.Beatmap :=
  {|
    Model.md5 := "A"; Model.id := 42; Model.set_id := 7;
    Model.song_name := "xi - FREEDOM DiVE [FOUR DIMENSIONS]";
    Model.status := RANKED; Model.plays := 50; Model.passes := 20;
    Model.mode := STD; Model.od := 8; Model.ar := 9;
    Model.difficulty_std := 7.5; Model.difficulty_taiko := 0;
    Model.difficulty_ctb := 0; Model.difficulty_mania := 0;
    Model.hit_length := 259; Model.last_update := 1600000000;
    Model.max_combo := 2385; Model.bpm := 222;
    Model.filename := "xi - FREEDOM DiVE (Nakagawa-Kanon) [FOUR DIMENSIONS].osu";
    Model.frozen := true; Model.rating := Some 7.5%float
  |}.

Definition database : FetchOne :=
  fun query values =>
    match query, values !! "md5", values !! "id" with
    | SELECT_FROM_beatmaps_WHERE_beatmap_md5, Some (VStr "A"), _
    | SELECT_FROM_beatmaps_WHERE_beatmap_id, _, Some (VInt 42) =>
        Some (<["rankedby" := VInt 1001]> (Model.to_dict stored))
    | _, _, _ => None
    end.

Definition no_database : FetchOne := fun _ _ => None.

End Scenario.

(** * Properties *)

(** ** The staleness policy *)

Section Staleness.

Import StatusEnum.


Lemma should_get_updates_raises (ranked_status last_updated now : Z) :
  ranked_status ∉
    [value QUALIFIED; value PENDING; value LOVED; value RANKED; value APPROVED] →
  Model._should_get_updates ranked_status last_updated now
  = Raise (NotImplementedError ranked_status).
Proof.
  intros H. rewrite !not_elem_of_cons in H.
  destruct H as (Hq & Hp & Hl & Hr & Ha & _).
  unfold Model._should_get_updates.
  apply Z.eqb_neq in Hq, Hp, Hl, Hr, Ha.
  rewrite Hq, Hp, Hl, Hr, Ha. reflexivity.
Qed.

End Staleness.



(** C5, on the code: the property [deserves_update] compares naive local
    times, so when the offset of the zone changes between [last_update] and
    the reading of the clock it does not decide by the time that has
    elapsed.  In the zone of Paris a Qualified beatmap updated at Unix time
    1698541080 (02:58:00 local, summer time) is not due at 1698541380
    (02:03:00 local, winter time), exactly 5 minutes later, where the claim
    makes it due; and a Pending beatmap updated at 1679792399 (01:59:59
    local) is due at 1679792400 (03:00:00 local), one second later, where
    the claim makes it due only after 10 minutes. *)
Theorem due_test_across_clock_change :
  (spec_interval QUALIFIED = Some 300
   ∧ 1698541080 <= 1698541380 - 300
   ∧ Model.deserves_update (Scenario.entry QUALIFIED 1698541080)
       Scenario.europe_paris 1698541380
     = Return false)
  ∧ (spec_interval PENDING = Some 600
     ∧ ¬ (1679792399 <= 1679792400 - 600)
     ∧ Model.deserves_update (Scenario.entry PENDING 1679792399)
         Scenario.europe_paris 1679792400
       = Return true)
  ∧ Usecases.deserves_update
      (Usecases.set_last_update 1698541080 (Scenario.old "A" QUALIFIED false))
      (Scenario.env_in Scenario.europe_paris 1698541380 []) Scenario.start
    = (Return false, Usecases.tick Scenario.start).
Proof.
  split; [| split].
  - split; [reflexivity |]. split; [lia | reflexivity].
  - split; [reflexivity |]. split; [lia | reflexivity].
  - reflexivity.
Qed.

(** C6: a status outside Qualified, Pending, Loved, Ranked and Approved
    (NotSubmitted, UpdateAvailable, or any other integer) makes the
    staleness check raise [NotImplementedError]; it returns no "not due",
    and [update_beatmap] raises the same error before it touches the API,
    the database or the notifier. *)
Theorem unknown_status_raises (ranked_status : Z) :
  ranked_status ∉
    [StatusEnum.value QUALIFIED; StatusEnum.value PENDING;
     StatusEnum.value LOVED; StatusEnum.value RANKED;
     StatusEnum.value APPROVED] →
  (∀ last_updated now,
      Model._should_get_updates ranked_status last_updated now
      = Raise (NotImplementedError ranked_status))
  ∧ (∀ (b : Model.Beatmap) utcoffset now,
        StatusEnum.value (Model.status b) = ranked_status →
        Model.deserves_update b utcoffset now
        = Raise (NotImplementedError ranked_status))
  ∧ (∀ (b : Usecases.Beatmap) env st,
        StatusEnum.value (Usecases.status b) = ranked_status →
        Usecases.update_beatmap b env st
        = (Raise (NotImplementedError ranked_status), st)).
Proof.
  intros H. repeat split.
  - intros. by apply should_get_updates_raises.
  - intros b utcoffset now <-. by apply should_get_updates_raises.
  - intros b env st <-.
    unfold Usecases.update_beatmap, Usecases.bind, Usecases.deserves_update.
    by rewrite should_get_updates_raises.
Qed.

Lemma unknown_status_raises_witness :
  Model._should_get_updates (StatusEnum.value UPDATE_AVAILABLE) 0 1700000000
  = Raise (NotImplementedError 1)
  ∧ Model._should_get_updates (StatusEnum.value NOT_SUBMITTED) 0 1700000000
    = Raise (NotImplementedError (-1))
  ∧ Usecases.update_beatmap (Scenario.old "A" UPDATE_AVAILABLE false)
      (Scenario.env 1700000000 []) Scenario.start
    = (Raise (NotImplementedError 1), Scenario.start).
Proof.
  split; [| split].
  - apply (unknown_status_raises 1); vm_compute.
    intros H. repeat (apply elem_of_cons in H as [H | H]; [discriminate H |]).
    by apply elem_of_nil in H.
  - apply (unknown_status_raises (-1)); vm_compute.
    intros H. repeat (apply elem_of_cons in H as [H | H]; [discriminate H |]).
    by apply elem_of_nil in H.
  - apply (unknown_status_raises 1); [| reflexivity]. vm_compute.
    intros H. repeat (apply elem_of_cons in H as [H | H]; [discriminate H |]).
    by apply elem_of_nil in H.
Defined.

(** ** The dict round trip *)

Lemma Result_bind_Return {A B} (r : Result A) (k : A → Result B) (b : B) :
  Result_bind r k = Return b → ∃ a, r = Return a ∧ k a = Return b.
Proof. destruct r as [a | e]; [by exists a | discriminate]. Qed.

Lemma getitem_Return mapping key v :
  getitem mapping key = Return v → mapping !! key = Some v.
Proof. unfold getitem. destruct (mapping !! key); by intros [= <-]. Qed.

Lemma StatusEnum_value_call n s :
  StatusEnum.call n = Return s → StatusEnum.value s = n.
Proof.
  unfold StatusEnum.call.
  destruct (List.find _ _) as [s' |] eqn:Hfind; intros [= <-].
  apply find_some in Hfind as [_ H]. by apply Z.eqb_eq.
Qed.





(** C7, on the code: the two storage adapters do not agree on the
    persisted record layout.  The row that [save] writes has none of the
    four star ratings that [from_mapping] reads, so [from_mapping] raises
    [KeyError] on the row saved for any beatmap; and [rankedby],
    [bancho_ranked_status] and the three object counts, which [save]
    writes, are keys of no [to_dict] and are not read by [from_mapping]. *)
Theorem saved_row_is_not_read_back (b : Usecases.Beatmap) :
  Model.from_mapping (Usecases.save_values b)
  = Raise (KeyError "difficulty_std")
  ∧ (∀ key,
        key ∈ ["difficulty_std"; "difficulty_taiko"; "difficulty_ctb";
               "difficulty_mania"] →
        Usecases.save_values b !! key = None
        ∧ ∀ e, is_Some (Model.to_dict e !! key))
  ∧ (∀ key,
        key ∈ ["rankedby"; "bancho_ranked_status"; "count_circles";
               "count_sliders"; "count_spinners"] →
        is_Some (Usecases.save_values b !! key)
        ∧ ∀ e, Model.to_dict e !! key = None).
Proof.
  split; [| split].
  - destruct b as [md5 id set_id song_name status plays passes mode od ar
                   hit_length last_update max_combo bpm filename frozen
                   rankedby rating bancho circles sliders spinners].
    destruct status, mode; reflexivity.
  - intros key Hkey.
    repeat (apply elem_of_cons in Hkey as [-> | Hkey];
            [split; [reflexivity | intros e; eexists; reflexivity] |]).
    apply elem_of_nil in Hkey. destruct Hkey.
  - intros key Hkey.
    repeat (apply elem_of_cons in Hkey as [-> | Hkey];
            [split; [eexists; reflexivity | intros e; reflexivity] |]).
    apply elem_of_nil in Hkey. destruct Hkey.
Qed.

(** ** Effects *)

Section Effects.

Import Usecases.
Local Open Scope py_scope.

(** A computation that returns, returned from each of its steps. *)
Lemma bind_Return {A B} (m : M A) (k : A → M B) env s b s' :
  bind m k env s = (Return b, s') →
  ∃ a s1, m env s = (Return a, s1) ∧ k a env s1 = (Return b, s').
Proof.
  unfold bind. destruct (m env s) as [[a | e] s1]; intros H.
  - by exists a, s1.
  - discriminate H.
Qed.

Lemma lift_Return {A} (r : Result A) env s a s' :
  lift r env s = (Return a, s') → r = Return a ∧ s' = s.
Proof. unfold lift. intros [= -> ->]. done. Qed.

Lemma ret_Return {A} (x : A) env s a s' :
  ret x env s = (Return a, s') → a = x ∧ s' = s.
Proof. unfold ret. intros [= -> ->]. done. Qed.

Lemma ask_Return env s a s' :
  ask env s = (Return a, s') → a = env ∧ s' = s.
Proof. unfold ask. intros [= -> ->]. done. Qed.

Lemma quiet_ret {A} (a : A) : quiet (ret a).
Proof. intros env s. cbn. auto. Qed.

Lemma quiet_lift {A} (r : Result A) : quiet (lift r).
Proof. intros env s. cbn. auto. Qed.

Lemma quiet_raise {A} (e : Exception) : quiet (@raise A e).
Proof. apply quiet_lift. Qed.

Lemma quiet_ask : quiet ask.
Proof. intros env s. cbn. auto. Qed.

Lemma quiet_time_time : quiet time_time.
Proof. intros env s. cbn. auto. Qed.

Lemma quiet_bind {A B} (m : M A) (k : A → M B) :
  quiet m → (∀ a, quiet (k a)) → quiet (bind m k).
Proof.
  intros Hm Hk env s. unfold bind.
  destruct (Hm env s) as (He & Hd & Ht).
  destruct (m env s) as [[a | e] s1]; cbn in *.
  - destruct (Hk a env s1) as (He' & Hd' & Ht').
    rewrite He', Hd'. repeat split; [done | done | lia].
  - done.
Qed.

Lemma quiet_if {A} (c : bool) (m1 m2 : M A) :
  quiet m1 → quiet m2 → quiet (if c then m1 else m2).
Proof. by destruct c. Qed.

End Effects.

Ltac quiet_step :=
  first
    [ apply quiet_ret
    | apply quiet_raise
    | apply quiet_lift
    | apply quiet_ask
    | apply quiet_time_time
    | apply quiet_bind; [| intros ?]
    | apply quiet_if ].

Ltac quiet_steps := repeat quiet_step.

(** Inversion of a run that returned, step by step. *)
Ltac run_inv H :=
  lazymatch type of H with
  | Usecases.bind _ _ _ _ = (Return _, _) =>
      let a := fresh "a" in
      let s := fresh "s" in
      let H1 := fresh "Hrun" in
      apply bind_Return in H as (a & s & H1 & H);
      run_inv H1; run_inv H
  | Usecases.lift _ _ _ = (Return _, _) =>
      apply lift_Return in H as [H ->]
  | Usecases.ret _ _ _ = (Return _, _) =>
      apply ret_Return in H as [H ->]; try discriminate H; try subst
  | Usecases.ask _ _ = (Return _, _) =>
      apply ask_Return in H as [-> ->]
  | Usecases.time_time _ _ = (Return _, _) =>
      unfold Usecases.time_time in H; injection H as <- <-
  | (if ?c then _ else _) _ _ = (Return _, _) =>
      let Hc := fresh "Hcond" in
      destruct c eqn:Hc; run_inv H
  | _ =>
      first
        [ progress unfold Usecases.int_item, Usecases.float_item,
            Usecases.format_field in H;
          run_inv H
        | idtac ]
  end.

(** ** The parse adapter *)

Section Parse.

Import Usecases.
Local Open Scope py_scope.

Lemma quiet_int_item r key : quiet (int_item r key).
Proof. unfold int_item. quiet_steps. Qed.

Lemma quiet_float_item r key : quiet (float_item r key).
Proof. unfold float_item. quiet_steps. Qed.

Lemma quiet_format_field r key : quiet (format_field r key).
Proof. unfold format_field. quiet_steps. Qed.

Lemma quiet_parse_one r : quiet (parse_one r).
Proof.
  unfold parse_one.
  repeat first
    [ apply quiet_int_item | apply quiet_float_item
    | apply quiet_format_field | quiet_step ].
Qed.

Lemma quiet_parse_loop l : ∀ maps, quiet (parse_loop l maps).
Proof.
  induction l as [| r l IH]; intros maps; cbn [parse_loop].
  - apply quiet_ret.
  - apply quiet_bind; [apply quiet_parse_one | intros b; apply IH].
Qed.

Lemma quiet_parse_from_osu_api l : quiet (parse_from_osu_api l).
Proof. apply quiet_parse_loop. Qed.

Lemma parse_one_Return r env s b s' :
  parse_one r env s = (Return b, s') →
  s' = tick s ∧ fresh_at env (clock env (ticks s)) r b.
Proof.
  unfold parse_one. intros H. run_inv H.
  all: split; [reflexivity |].
  all: split; cbn; try reflexivity.
  all: try (repeat match goal with
            | Hr : ?x = Return _ |- context [?x] => rewrite Hr; cbn
            end; reflexivity).
  all: rewrite bool_decide_eq_true; reflexivity.
Qed.

Lemma parse_loop_Return l : ∀ maps env s result s',
  parse_loop l maps env s = (Return result, s') →
  ∃ new,
    result = maps ++ new
    ∧ length new = length l
    ∧ ticks s' = (ticks s + length l)%nat
    ∧ ∀ (i : nat) r b,
        l !! i = Some r → new !! i = Some b →
        fresh_at env (clock env (ticks s + i)%nat) r b.
Proof.
  induction l as [| r0 l IH]; intros maps env s result s' H; cbn [parse_loop] in H.
  - run_inv H. exists []. rewrite app_nil_r. cbn.
    split; [reflexivity |]. split; [reflexivity |]. split; [lia |].
    intros i r b Hi. by rewrite lookup_nil in Hi.
  - apply bind_Return in H as (b0 & s1 & H0 & H).
    apply parse_one_Return in H0 as [-> Hfresh].
    apply IH in H as (new & -> & Hlen & Hticks & Hnew).
    exists (b0 :: new). rewrite <- app_assoc. cbn in *.
    split; [reflexivity |]. split; [lia |]. split; [lia |].
    intros [| i] r b Hr Hb; cbn in *.
    + injection Hr as <-. injection Hb as <-.
      by rewrite Nat.add_0_r.
    + replace (ticks s + S i)%nat with (S (ticks s) + i)%nat by lia.
      by eapply Hnew.
Qed.

End Parse.

(** C9: every beatmap that [parse_from_osu_api] returns has [plays = 0],
    [passes = 0], [rating = 10.0], [rankedby = None] and, as [last_update],
    the clock reading made while its object was parsed; its status is the
    translation of the object's [approved] code and it is frozen exactly
    when that status is Ranked, Approved or Loved.  The beatmaps come in the
    order of the objects, one for each. *)
Theorem parsed_beatmaps_start_fresh
    (response_json_list : list (gmap string Value)) env s maps s' :
  Usecases.parse_from_osu_api response_json_list env s = (Return maps, s') →
  length maps = length response_json_list
  ∧ ∀ (i : nat) response_json b,
      response_json_list !! i = Some response_json →
      maps !! i = Some b →
      Usecases.plays b = 0
      ∧ Usecases.passes b = 0
      ∧ Usecases.rating b = Some 10%float
      ∧ Usecases.rankedby b = None
      ∧ Usecases.last_update b
        = Usecases.clock env (Usecases.ticks s + i)%nat
      ∧ Result_bind
          (Result_bind (getitem response_json "approved") (Usecases.py_int env))
          (Usecases.from_osu_api env)
        = Return (Usecases.status b)
      ∧ (Usecases.frozen b = true
         ↔ Usecases.status b ∈ [RANKED; APPROVED; LOVED]).
Proof.
  intros H. apply parse_loop_Return in H as (new & -> & Hlen & _ & Hnew).
  split; [exact Hlen |].
  intros i r b Hr Hb. destruct (Hnew i r b Hr Hb). done.
Qed.

Lemma parsed_beatmaps_start_fresh_witness :
  ∃ b s',
    Usecases.parse_from_osu_api [Scenario.record "B" "1"]
      (Scenario.env 1700000000 []) Scenario.start = (Return [b], s')
    ∧ Usecases.plays b = 0
    ∧ Usecases.passes b = 0
    ∧ Usecases.rating b = Some 10%float
    ∧ Usecases.rankedby b = None
    ∧ Usecases.last_update b = 1700000000
    ∧ Usecases.status b = RANKED
    ∧ Usecases.frozen b = true.
Proof.
  eexists. eexists. split; [vm_compute; reflexivity |].
  destruct (parsed_beatmaps_start_fresh [Scenario.record "B" "1"]
              (Scenario.env 1700000000 []) Scenario.start _ _ eq_refl) as [_ Hall].
  destruct (Hall 0%nat _ _ eq_refl eq_refl)
    as (Hplays & Hpasses & Hrating & Hrankedby & Hlast & Hstatus & Hfrozen).
  split; [exact Hplays |]. split; [exact Hpasses |].
  split; [exact Hrating |]. split; [exact Hrankedby |].
  split; [exact Hlast |]. split; [reflexivity |].
  apply Hfrozen. apply list_elem_of_here.
Defined.

(** ** Fetching from the API *)

Section Fetch.

Import Usecases.
Local Open Scope py_scope.

Lemma quiet_random_choice seq : quiet (random_choice seq).
Proof.
  unfold random_choice. apply quiet_bind; [apply quiet_ask | intros env].
  destruct (seq !! _); quiet_steps.
Qed.

Lemma quiet_id_from_api id' : quiet (id_from_api id' false).
Proof.
  unfold id_from_api.
  apply quiet_bind; [apply quiet_ask | intros env].
  apply quiet_bind; [apply quiet_random_choice | intros api_key].
  apply quiet_bind; [apply quiet_lift | intros response].
  repeat (apply quiet_if; [quiet_steps |]).
  apply quiet_bind; [apply quiet_lift | intros _].
  apply quiet_bind; [apply quiet_lift | intros response_json].
  destruct response_json; [apply quiet_ret |].
  apply quiet_bind; [apply quiet_parse_from_osu_api | intros beatmaps].
  quiet_steps.
Qed.

(** The beatmap [id_from_api] returns was parsed in this call, from an
    object of the response, and has the id asked for. *)
Lemma id_from_api_Return id' env s cand s' :
  id_from_api id' false env s = (Return (Some cand), s') →
  id cand = id' ∧ ∃ now r, fresh_at env now r cand.
Proof.
  unfold id_from_api. intros H.
  apply bind_Return in H as (env' & s0 & Hask & H). run_inv Hask.
  apply bind_Return in H as (api_key & s1 & _ & H).
  apply bind_Return in H as (response & s2 & _ & H).
  destruct (status_code response =? 404); [by run_inv H |].
  destruct (status_code response =? 403); [discriminate H |].
  apply bind_Return in H as (? & s3 & _ & H).
  apply bind_Return in H as (response_json & s4 & _ & H).
  destruct response_json as [| r0 l]; [by run_inv H |].
  apply bind_Return in H as (beatmaps & s5 & Hparse & H).
  run_inv H.
  match goal with
  | Hfind : Some cand = List.find _ _ |- _ =>
      symmetry in Hfind; apply find_some in Hfind as [Hin Hid]
  end.
  split; [by apply Z.eqb_eq |].
  apply parse_loop_Return in Hparse as (new & -> & Hlen & _ & Hnew).
  cbn [app] in Hin. apply list_elem_of_In, list_elem_of_lookup in Hin as [i Hi].
  destruct (lookup_lt_is_Some_2 (r0 :: l) i) as [r Hr].
  { rewrite <- Hlen. by eapply lookup_lt_Some. }
  eauto.
Qed.

End Fetch.

(** ** Reconciliation *)

Section Update.

Import Usecases.
Local Open Scope py_scope.

Lemma deserves_update_Return b env s due s1 :
  deserves_update b env s = (Return due, s1) →
  Model._should_get_updates (StatusEnum.value (status b))
    (Model.fromtimestamp (utcoffset env) (last_update b))
    (Model.fromtimestamp (utcoffset env) (clock env (ticks s))) = Return due
  ∧ s1 = tick s.
Proof.
  unfold deserves_update.
  destruct (Model._should_get_updates _ _ _); by intros [= <- <-].
Qed.

Lemma deserves_update_state b env s r s1 :
  deserves_update b env s = (r, s1) →
  executed s1 = executed s ∧ discord s1 = discord s.
Proof.
  unfold deserves_update.
  destruct (Model._should_get_updates _ _ _); by intros [= <- <-].
Qed.

Lemma id_from_api_state id' env s r s' :
  id_from_api id' false env s = (r, s') →
  executed s' = executed s ∧ discord s' = discord s.
Proof.
  intros H. destruct (quiet_id_from_api id' env s) as (He & Hd & _).
  rewrite H in He, Hd. done.
Qed.

Lemma lost_status_changed old cand :
  lost_status old cand = true → status old ≠ status cand.
Proof.
  unfold lost_status. intros H.
  apply andb_true_iff in H as [Hp Hin].
  apply bool_decide_eq_true in Hp, Hin. rewrite Hp.
  intros Heq. rewrite Heq in Hin.
  repeat (apply elem_of_cons in Hin as [Hin | Hin]; [discriminate Hin |]).
  by apply elem_of_nil in Hin.
Qed.

Lemma lost_status_iff old cand :
  lost_status old cand = true
  ↔ status cand = PENDING ∧ status old ∈ [RANKED; APPROVED; LOVED].
Proof.
  unfold lost_status. by rewrite andb_true_iff, !bool_decide_eq_true.
Qed.

(** The run of [update_beatmap] on a due beatmap for which the API
    returned [cand]. *)
Lemma update_beatmap_fetched old cand env s s1 s2 :
  deserves_update old env s = (Return true, s1) →
  id_from_api (id old) false env s1 = (Return (Some cand), s2) →
  let replaced := negb (String.eqb (md5 cand) (md5 old)) in
  let new_beatmap := if replaced then cand else keep_stats old cand in
  let changed := negb (bool_decide (status old = status new_beatmap)) in
  let merged :=
    set_last_update (clock env (ticks s2))
      (if frozen old then force_old_status old new_beatmap
       else if changed && lost_status old new_beatmap
            then freeze old new_beatmap
            else new_beatmap) in
  update_beatmap old env s
  = (Return (Some merged),
     {| ticks := S (ticks s2);
        executed :=
          executed s
          ++ (if replaced
              then [(DELETE_FROM_beatmaps_WHERE_beatmap_md5,
                     delete_values (md5 old))]
              else [])
          ++ [(REPLACE_INTO_beatmaps, save_values merged)];
        discord :=
          discord s
          ++ (if frozen old then []
              else if changed
                   then [{| old_beatmap := old;
                            new_beatmap := new_beatmap;
                            action_taken :=
                              if lost_status old new_beatmap
                              then "frozen" else "status_change" |}]
                   else []) |}).
Proof.
  intros Hdue Hfetch.
  assert (executed s2 = executed s ∧ discord s2 = discord s) as [He Hd].
  { destruct (deserves_update_state _ _ _ _ _ Hdue) as [He1 Hd1].
    destruct (id_from_api_state _ _ _ _ _ Hfetch) as [He2 Hd2].
    split; congruence. }
  unfold update_beatmap. unfold bind at 1. rewrite Hdue. cbn [negb].
  unfold bind at 1. rewrite Hfetch. rewrite <- He, <- Hd.
  destruct s2 as [ticks2 executed2 discord2].
  destruct (negb (String.eqb (md5 cand) (md5 old)));
    destruct (frozen old);
    cbn -[save_values delete_values set_last_update force_old_status
          freeze keep_stats lost_status];
    rewrite ?app_nil_r, <- ?app_assoc; try reflexivity.
  all: match goal with
       | |- context [bool_decide (status ?a = status ?b)] =>
           destruct (bool_decide (status a = status b));
           cbn -[save_values delete_values set_last_update force_old_status
                 freeze keep_stats lost_status];
           rewrite ?app_nil_r, <- ?app_assoc; try reflexivity;
           destruct (lost_status a b);
           cbn -[save_values delete_values set_last_update force_old_status
                 freeze keep_stats lost_status];
           rewrite <- ?app_assoc; reflexivity
       end.
Qed.

End Update.

Section Outcomes.

Import Usecases.
Local Open Scope py_scope.

Lemma update_beatmap_not_due b env s s1 :
  deserves_update b env s = (Return false, s1) →
  update_beatmap b env s = (Return (Some b), s1).
Proof.
  intros Hdue. unfold update_beatmap. unfold bind at 1. by rewrite Hdue.
Qed.

(** A call that returns a beatmap either found it not due and returns it
    as it is, or fetched a candidate for it. *)
Lemma update_beatmap_Return old env s merged s' :
  update_beatmap old env s = (Return (Some merged), s') →
  (merged = old ∧ deserves_update old env s = (Return false, s'))
  ∨ (∃ cand s1 s2,
        deserves_update old env s = (Return true, s1)
        ∧ id_from_api (id old) false env s1 = (Return (Some cand), s2)).
Proof.
  unfold update_beatmap. intros H.
  apply bind_Return in H as ([|] & s1 & Hdue & H); cbn [negb] in H.
  - right. apply bind_Return in H as ([cand |] & s2 & Hfetch & H).
    + by exists cand, s1, s2.
    + run_inv H.
  - left. run_inv H. injection H as <-. done.
Qed.

Lemma save_values_md5 b : save_values b !! "beatmap_md5" = Some (VStr (md5 b)).
Proof. reflexivity. Qed.

Lemma delete_values_md5 old_md5 :
  delete_values old_md5 !! "old_md5" = Some (VStr old_md5).
Proof. reflexivity. Qed.

(** On the store, deleting the row of one checksum and writing a beatmap
    of another leaves no row for the first and that beatmap's row for
    the second. *)
Lemma run_delete_replace store old_md5 b :
  md5 b ≠ old_md5 →
  let store' :=
    run_statements store
      [(DELETE_FROM_beatmaps_WHERE_beatmap_md5, delete_values old_md5);
       (REPLACE_INTO_beatmaps, save_values b)] in
  store' !! old_md5 = None ∧ store' !! md5 b = Some (save_values b).
Proof.
  intros Hne. unfold run_statements. cbn [foldl run_statement].
  rewrite delete_values_md5, save_values_md5. split.
  - rewrite lookup_insert_ne by done. apply lookup_delete_eq.
  - apply lookup_insert_eq.
Qed.

End Outcomes.

(** ** Identity change *)

(** C1, as stated, fails: with a frozen Ranked beatmap of checksum "A" and a
    fetched Pending candidate of checksum "B", the beatmap that is saved and
    returned is not the candidate with a new [last_update]: its status is
    Ranked, it is frozen and it keeps [rankedby], where the candidate is
    Pending, not frozen and has none. *)
Lemma identity_change_not_plain_candidate :
  ∃ cand merged s1 s2 s3,
    Usecases.deserves_update (Scenario.old "A" RANKED true)
      (Scenario.env 1700000000 [Scenario.record "B" "0"]) Scenario.start
    = (Return true, s1)
    ∧ Usecases.id_from_api 42 false
        (Scenario.env 1700000000 [Scenario.record "B" "0"]) s1
      = (Return (Some cand), s2)
    ∧ Usecases.md5 cand ≠ "A"
    ∧ Usecases.update_beatmap (Scenario.old "A" RANKED true)
        (Scenario.env 1700000000 [Scenario.record "B" "0"]) Scenario.start
      = (Return (Some merged), s3)
    ∧ merged ≠ Usecases.set_last_update (Usecases.last_update merged) cand
    ∧ (Usecases.status cand = PENDING ∧ Usecases.status merged = RANKED)
    ∧ (Usecases.frozen cand = false ∧ Usecases.frozen merged = true)
    ∧ (Usecases.rankedby cand = None ∧ Usecases.rankedby merged = Some 1001).
Proof.
  eexists. eexists. eexists. eexists. eexists.
  split; [vm_compute; reflexivity |].
  split; [vm_compute; reflexivity |].
  split; [discriminate |].
  split; [vm_compute; reflexivity |].
  split; [discriminate |].
  repeat split.
Qed.

(** C1, amended: when the fetched candidate has another checksum than the
    old beatmap, [update_beatmap] deletes the row of the old checksum, then
    saves and returns the candidate with [last_update] set to the clock
    reading, and with no counter or rating carried over ([plays = 0],
    [passes = 0], [rating = 10.0]).  Status, [frozen] and [rankedby] are the
    candidate's unless the old beatmap is frozen (then the old status, frozen
    and the old [rankedby]) or the candidate is Pending where the old one is
    Ranked, Approved or Loved (then the old status, frozen).  In the store
    the old checksum has no row afterwards and the new one has the saved
    row. *)
Theorem identity_change_replaces_row
    (old cand : Usecases.Beatmap) env s s1 s2 :
  Usecases.deserves_update old env s = (Return true, s1) →
  Usecases.id_from_api (Usecases.id old) false env s1
  = (Return (Some cand), s2) →
  Usecases.md5 cand ≠ Usecases.md5 old →
  ∃ merged s3,
    Usecases.update_beatmap old env s = (Return (Some merged), s3)
    ∧ merged
      = Usecases.set_last_update (Usecases.clock env (Usecases.ticks s2))
          (if Usecases.frozen old then Usecases.force_old_status old cand
           else if Usecases.lost_status old cand then Usecases.freeze old cand
           else cand)
    ∧ Usecases.executed s3
      = Usecases.executed s
        ++ [(Usecases.DELETE_FROM_beatmaps_WHERE_beatmap_md5,
             Usecases.delete_values (Usecases.md5 old));
            (Usecases.REPLACE_INTO_beatmaps, Usecases.save_values merged)]
    ∧ (∀ store,
          run_statements store
            [(Usecases.DELETE_FROM_beatmaps_WHERE_beatmap_md5,
              Usecases.delete_values (Usecases.md5 old));
             (Usecases.REPLACE_INTO_beatmaps, Usecases.save_values merged)]
          !! Usecases.md5 old = None
          ∧ run_statements store
              [(Usecases.DELETE_FROM_beatmaps_WHERE_beatmap_md5,
                Usecases.delete_values (Usecases.md5 old));
               (Usecases.REPLACE_INTO_beatmaps, Usecases.save_values merged)]
            !! Usecases.md5 cand = Some (Usecases.save_values merged))
    ∧ Usecases.plays merged = 0
    ∧ Usecases.passes merged = 0
    ∧ Usecases.rating merged = Some 10%float
    ∧ Usecases.last_update merged = Usecases.clock env (Usecases.ticks s2)
    ∧ (Usecases.frozen old = false →
       Usecases.lost_status old cand = false →
       merged
       = Usecases.set_last_update (Usecases.clock env (Usecases.ticks s2)) cand).
Proof.
  intros Hdue Hfetch Hmd5.
  pose proof (update_beatmap_fetched old cand env s s1 s2 Hdue Hfetch) as Hrun.
  apply id_from_api_Return in Hfetch as (_ & now & r & Hfresh).
  apply String.eqb_neq in Hmd5 as Heqb. rewrite Heqb in Hrun.
  cbn [negb] in Hrun. cbv zeta in Hrun.
  assert ((if Usecases.frozen old then Usecases.force_old_status old cand
           else if negb (bool_decide (Usecases.status old = Usecases.status cand))
                   && Usecases.lost_status old cand
                then Usecases.freeze old cand else cand)
          = (if Usecases.frozen old then Usecases.force_old_status old cand
             else if Usecases.lost_status old cand
                  then Usecases.freeze old cand else cand)) as Hsame.
  { destruct (Usecases.frozen old); [reflexivity |].
    destruct (Usecases.lost_status old cand) eqn:Hlost.
    - apply lost_status_changed in Hlost.
      by rewrite bool_decide_eq_false_2.
    - by rewrite andb_false_r. }
  rewrite Hsame in Hrun.
  eexists. eexists. split; [exact Hrun |].
  split; [reflexivity |].
  split; [cbn [Usecases.executed app]; reflexivity |].
  split.
  { intros store.
    match goal with
    | |- context [Usecases.save_values ?m] =>
        replace (Usecases.md5 cand) with (Usecases.md5 m)
          by (destruct (Usecases.frozen old);
              [| destruct (Usecases.lost_status old cand)]; reflexivity);
        apply (run_delete_replace store (Usecases.md5 old) m);
        replace (Usecases.md5 m) with (Usecases.md5 cand)
          by (destruct (Usecases.frozen old);
              [| destruct (Usecases.lost_status old cand)]; reflexivity)
    end.
    exact Hmd5. }
  destruct Hfresh as [Hplays Hpasses Hrating _ _ _ _].
  repeat split.
  - by destruct (Usecases.frozen old);
      [| destruct (Usecases.lost_status old cand)].
  - by destruct (Usecases.frozen old);
      [| destruct (Usecases.lost_status old cand)].
  - by destruct (Usecases.frozen old);
      [| destruct (Usecases.lost_status old cand)].
  - intros -> ->. reflexivity.
Qed.

Lemma identity_change_replaces_row_witness :
  ∃ merged s3,
    Usecases.update_beatmap (Scenario.old "A" PENDING false)
      (Scenario.env 1700000000 [Scenario.record "B" "0"]) Scenario.start
    = (Return (Some merged), s3)
    ∧ Usecases.md5 merged = "B"
    ∧ Usecases.plays merged = 0
    ∧ Usecases.last_update merged = 1700000002
    ∧ Usecases.executed s3
      = [(Usecases.DELETE_FROM_beatmaps_WHERE_beatmap_md5,
          Usecases.delete_values "A");
         (Usecases.REPLACE_INTO_beatmaps, Usecases.save_values merged)].
Proof.
  destruct (identity_change_replaces_row (Scenario.old "A" PENDING false)
              (Scenario.candidate "B" PENDING 1700000001)
              (Scenario.env 1700000000 [Scenario.record "B" "0"])
              Scenario.start (Usecases.tick Scenario.start)
              (Usecases.tick (Usecases.tick Scenario.start)))
    as (merged & s3 & Hrun & Hmerged & Hexecuted & _ & Hplays & _ & _ & Hlast & _).
  - vm_compute. reflexivity.
  - vm_compute. reflexivity.
  - discriminate.
  - exists merged, s3.
    split; [exact Hrun |]. split; [rewrite Hmerged; reflexivity |].
    split; [exact Hplays |]. split; [exact Hlast |]. exact Hexecuted.
Defined.

(** ** The freeze *)

Section Freeze.

Import Usecases.

Lemma update_beatmap_frozen old env s merged s' :
  frozen old = true →
  update_beatmap old env s = (Return (Some merged), s') →
  status merged = status old ∧ frozen merged = true.
Proof.
  intros Hfrozen Hrun.
  destruct (update_beatmap_Return _ _ _ _ _ Hrun)
    as [[-> _] | (cand & s1 & s2 & Hdue & Hfetch)]; [done |].
  rewrite (update_beatmap_fetched _ _ _ _ _ _ Hdue Hfetch) in Hrun.
  cbv zeta in Hrun. rewrite Hfrozen in Hrun.
  injection Hrun as <- _. done.
Qed.

End Freeze.

(** C2: once a beatmap is frozen, whatever a call of [update_beatmap]
    returns for it, in any environment (whatever status the API reports),
    has the status of the old beatmap and is frozen; so has what any
    sequence of such calls returns. *)
Theorem frozen_status_is_kept (old b : Usecases.Beatmap) :
  Usecases.frozen old = true →
  reconciles old b →
  Usecases.status b = Usecases.status old ∧ Usecases.frozen b = true.
Proof.
  intros Hfrozen Hcalls.
  induction Hcalls as [b | b b' b'' env s s' Hrun _ IH]; [done |].
  destruct (update_beatmap_frozen _ _ _ _ _ Hfrozen Hrun) as [Hstatus Hfrozen'].
  rewrite <- Hstatus. by apply IH.
Qed.

Lemma frozen_status_is_kept_witness :
  ∃ b b' s s',
    Usecases.update_beatmap (Scenario.old "A" RANKED true)
      (Scenario.env 1700000000 [Scenario.record "B" "0"]) Scenario.start
    = (Return (Some b), s)
    ∧ Usecases.update_beatmap b
        (Scenario.env 1800000000 [Scenario.record "B" "3"]) Scenario.start
      = (Return (Some b'), s')
    ∧ Usecases.last_update b' = 1800000002
    ∧ Usecases.status b' = RANKED ∧ Usecases.frozen b' = true.
Proof.
  eexists. eexists. eexists. eexists.
  split; [vm_compute; reflexivity |].
  split; [vm_compute; reflexivity |].
  split; [reflexivity |].
  apply (frozen_status_is_kept (Scenario.old "A" RANKED true));
    [reflexivity |].
  eapply (reconciles_cons _ _ _
            (Scenario.env 1700000000 [Scenario.record "B" "0"]) Scenario.start);
    [vm_compute; reflexivity |].
  eapply (reconciles_cons _ _ _
            (Scenario.env 1800000000 [Scenario.record "B" "3"]) Scenario.start);
    [vm_compute; reflexivity |].
  apply reconciles_nil.
Defined.

(** C10: for a frozen beatmap no call of [update_beatmap] sends a
    notification, however it ends; and when a candidate was fetched, with
    whatever status, the beatmap returned has the old status and is frozen.
    The two notifications are sent in the branch of a beatmap that is not
    frozen only. *)
Theorem frozen_update_is_silent (old : Usecases.Beatmap) :
  Usecases.frozen old = true →
  (∀ env s,
      Usecases.discord (Usecases.update_beatmap old env s).2
      = Usecases.discord s)
  ∧ (∀ cand env s s1 s2,
        Usecases.deserves_update old env s = (Return true, s1) →
        Usecases.id_from_api (Usecases.id old) false env s1
        = (Return (Some cand), s2) →
        ∃ merged s3,
          Usecases.update_beatmap old env s = (Return (Some merged), s3)
          ∧ Usecases.status merged = Usecases.status old
          ∧ Usecases.frozen merged = true
          ∧ Usecases.discord s3 = Usecases.discord s).
Proof.
  intros Hfrozen. split.
  - intros env s.
    destruct (Usecases.deserves_update old env s) as [[[|] | e] s1] eqn:Hdue;
      pose proof (deserves_update_state _ _ _ _ _ Hdue) as [_ Hs1].
    + destruct (Usecases.id_from_api (Usecases.id old) false env s1)
        as [[[cand |] | e] s2] eqn:Hfetch;
        pose proof (id_from_api_state _ _ _ _ _ Hfetch) as [_ Hs2].
      * rewrite (update_beatmap_fetched _ _ _ _ _ _ Hdue Hfetch).
        cbv zeta. rewrite Hfrozen. cbn. apply app_nil_r.
      * unfold Usecases.update_beatmap. unfold Usecases.bind at 1.
        rewrite Hdue. cbn [negb]. unfold Usecases.bind at 1. rewrite Hfetch.
        cbn. rewrite Hs2, Hs1. reflexivity.
      * unfold Usecases.update_beatmap. unfold Usecases.bind at 1.
        rewrite Hdue. cbn [negb]. unfold Usecases.bind at 1. rewrite Hfetch.
        cbn. rewrite Hs2, Hs1. reflexivity.
    + rewrite (update_beatmap_not_due _ _ _ _ Hdue). cbn.
      rewrite Hs1. reflexivity.
    + unfold Usecases.update_beatmap. unfold Usecases.bind at 1.
      rewrite Hdue. cbn. rewrite Hs1. reflexivity.
  - intros cand env s s1 s2 Hdue Hfetch.
    rewrite (update_beatmap_fetched _ _ _ _ _ _ Hdue Hfetch).
    cbv zeta. rewrite Hfrozen.
    eexists. eexists. split; [reflexivity |].
    cbn. rewrite app_nil_r. done.
Qed.

Lemma frozen_update_is_silent_witness :
  ∃ merged s3,
    Usecases.update_beatmap (Scenario.old "A" LOVED true)
      (Scenario.env 1700000000 [Scenario.record "A" "3"]) Scenario.start
    = (Return (Some merged), s3)
    ∧ Usecases.status merged = LOVED
    ∧ Usecases.frozen merged = true
    ∧ Usecases.discord s3 = [].
Proof.
  destruct (frozen_update_is_silent (Scenario.old "A" LOVED true) eq_refl)
    as [_ Hfetched].
  apply (Hfetched (Scenario.candidate "A" QUALIFIED 1700000001)
           (Scenario.env 1700000000 [Scenario.record "A" "3"])
           Scenario.start (Usecases.tick Scenario.start)
           (Usecases.tick (Usecases.tick Scenario.start))).
  - vm_compute. reflexivity.
  - vm_compute. reflexivity.
Defined.

(** ** Status changes of a beatmap that is not frozen *)

(** C3: for a beatmap that is not frozen and a fetched candidate, let
    [new_beatmap] be the candidate as it stands when the status is compared
    (with the old counters when the checksum is the same).  If the
    candidate is Pending and the old status is Ranked, Approved or Loved,
    the beatmap returned has the old status and is frozen, and the call
    sends one notification, ["frozen"], with the old beatmap and
    [new_beatmap].  If the statuses differ in another way, the beatmap
    returned has the candidate's status and frozen flag, and the call sends
    one notification, ["status_change"]. *)
Theorem status_change_is_notified (old cand : Usecases.Beatmap) env s s1 s2 :
  Usecases.deserves_update old env s = (Return true, s1) →
  Usecases.id_from_api (Usecases.id old) false env s1
  = (Return (Some cand), s2) →
  Usecases.frozen old = false →
  let new_beatmap :=
    if String.eqb (Usecases.md5 cand) (Usecases.md5 old)
    then Usecases.keep_stats old cand else cand in
  ∃ merged s3,
    Usecases.update_beatmap old env s = (Return (Some merged), s3)
    ∧ (Usecases.status cand = PENDING →
       Usecases.status old ∈ [RANKED; APPROVED; LOVED] →
       Usecases.status merged = Usecases.status old
       ∧ Usecases.frozen merged = true
       ∧ Usecases.discord s3
         = Usecases.discord s
           ++ [{| Usecases.old_beatmap := old;
                  Usecases.new_beatmap := new_beatmap;
                  Usecases.action_taken := "frozen" |}])
    ∧ (Usecases.status cand ≠ Usecases.status old →
       ¬ (Usecases.status cand = PENDING
          ∧ Usecases.status old ∈ [RANKED; APPROVED; LOVED]) →
       Usecases.status merged = Usecases.status cand
       ∧ Usecases.frozen merged = Usecases.frozen cand
       ∧ Usecases.discord s3
         = Usecases.discord s
           ++ [{| Usecases.old_beatmap := old;
                  Usecases.new_beatmap := new_beatmap;
                  Usecases.action_taken := "status_change" |}]).
Proof.
  intros Hdue Hfetch Hfrozen new_beatmap.
  rewrite (update_beatmap_fetched _ _ _ _ _ _ Hdue Hfetch).
  cbv zeta. rewrite Hfrozen.
  assert (Usecases.status new_beatmap = Usecases.status cand) as Hstatus
    by (unfold new_beatmap; by destruct (String.eqb _ _)).
  assert (Usecases.frozen new_beatmap = Usecases.frozen cand) as Hfr
    by (unfold new_beatmap; by destruct (String.eqb _ _)).
  assert (Usecases.lost_status old new_beatmap = Usecases.lost_status old cand)
    as Hlost by (unfold Usecases.lost_status; by rewrite Hstatus).
  replace (if negb (String.eqb (Usecases.md5 cand) (Usecases.md5 old))
           then cand else Usecases.keep_stats old cand)
    with new_beatmap
    by (unfold new_beatmap; by destruct (String.eqb _ _)).
  rewrite Hstatus, Hlost.
  eexists. eexists. split; [reflexivity |]. split.
  - intros Hpending Hin.
    assert (Usecases.lost_status old cand = true) as ->
      by (by apply lost_status_iff).
    rewrite bool_decide_eq_false_2
      by (apply lost_status_changed; by apply lost_status_iff).
    cbn. done.
  - intros Hne Hnot.
    assert (Usecases.lost_status old cand = false) as ->.
    { apply not_true_iff_false. intros Hl. by apply lost_status_iff in Hl. }
    rewrite bool_decide_eq_false_2 by done.
    cbn. done.
Qed.

Lemma status_change_is_notified_witness :
  ∃ merged s3,
    Usecases.update_beatmap (Scenario.old "A" RANKED false)
      (Scenario.env 1700000000 [Scenario.record "A" "0"]) Scenario.start
    = (Return (Some merged), s3)
    ∧ Usecases.status merged = RANKED
    ∧ Usecases.frozen merged = true
    ∧ Usecases.discord s3
      = [{| Usecases.old_beatmap := Scenario.old "A" RANKED false;
            Usecases.new_beatmap :=
              Usecases.keep_stats (Scenario.old "A" RANKED false)
                (Scenario.candidate "A" PENDING 1700000001);
            Usecases.action_taken := "frozen" |}].
Proof.
  destruct (status_change_is_notified (Scenario.old "A" RANKED false)
              (Scenario.candidate "A" PENDING 1700000001)
              (Scenario.env 1700000000 [Scenario.record "A" "0"])
              Scenario.start (Usecases.tick Scenario.start)
              (Usecases.tick (Usecases.tick Scenario.start)))
    as (merged & s3 & Hrun & Hfrozen & _).
  - vm_compute. reflexivity.
  - vm_compute. reflexivity.
  - reflexivity.
  - exists merged, s3. split; [exact Hrun |].
    apply Hfrozen; [reflexivity | apply list_elem_of_here].
Defined.

(** ** Same identity *)

(** C4: when the fetched candidate has the checksum of the old beatmap, the
    beatmap saved and returned has the [plays], [passes], [rating] and
    [rankedby] of the old one, and as [last_update] the clock reading made
    after the fetch, the last of the call. *)
Theorem same_identity_keeps_stats (old cand : Usecases.Beatmap) env s s1 s2 :
  Usecases.deserves_update old env s = (Return true, s1) →
  Usecases.id_from_api (Usecases.id old) false env s1
  = (Return (Some cand), s2) →
  Usecases.md5 cand = Usecases.md5 old →
  ∃ merged s3,
    Usecases.update_beatmap old env s = (Return (Some merged), s3)
    ∧ Usecases.plays merged = Usecases.plays old
    ∧ Usecases.passes merged = Usecases.passes old
    ∧ Usecases.rating merged = Usecases.rating old
    ∧ Usecases.rankedby merged = Usecases.rankedby old
    ∧ Usecases.last_update merged = Usecases.clock env (Usecases.ticks s2)
    ∧ Usecases.ticks s3 = S (Usecases.ticks s2)
    ∧ Usecases.executed s3
      = Usecases.executed s
        ++ [(Usecases.REPLACE_INTO_beatmaps, Usecases.save_values merged)].
Proof.
  intros Hdue Hfetch Hmd5.
  rewrite (update_beatmap_fetched _ _ _ _ _ _ Hdue Hfetch).
  cbv zeta. apply String.eqb_eq in Hmd5 as ->. cbn [negb].
  eexists. eexists. split; [reflexivity |].
  destruct (Usecases.frozen old); [cbn; done |].
  destruct (negb _ && _); cbn; done.
Qed.

Lemma same_identity_keeps_stats_witness :
  ∃ merged s3,
    Usecases.update_beatmap (Scenario.old "A" PENDING false)
      (Scenario.env 1700000000 [Scenario.record "A" "0"]) Scenario.start
    = (Return (Some merged), s3)
    ∧ Usecases.plays merged = 50
    ∧ Usecases.passes merged = 20
    ∧ Usecases.rating merged = Some 7.5%float
    ∧ Usecases.rankedby merged = Some 1001
    ∧ Usecases.last_update merged = 1700000002.
Proof.
  destruct (same_identity_keeps_stats (Scenario.old "A" PENDING false)
              (Scenario.candidate "A" PENDING 1700000001)
              (Scenario.env 1700000000 [Scenario.record "A" "0"])
              Scenario.start (Usecases.tick Scenario.start)
              (Usecases.tick (Usecases.tick Scenario.start)))
    as (merged & s3 & Hrun & Hplays & Hpasses & Hrating & Hrankedby & Hlast & _).
  - vm_compute. reflexivity.
  - vm_compute. reflexivity.
  - reflexivity.
  - exists merged, s3.
    split; [exact Hrun |]. split; [exact Hplays |]. split; [exact Hpasses |].
    split; [exact Hrating |]. split; [exact Hrankedby |]. exact Hlast.
Defined.

(** ** Idempotence *)



(** C8, on the code: the second call decides by naive local times whether
    it is within the refresh window.  In the zone of Paris, a Pending
    beatmap is updated at Unix time 1679792399 (01:59:59 local) and the call
    returns [b1]; a second call on [b1] one second later (03:00:00 local,
    summer time has begun), well within the 10 minutes of a Pending beatmap
    and against the same answer of the API, finds [b1] due: it asks the API
    again, executes a [REPLACE] and returns a beatmap that is not [b1],
    though its status and [frozen] are those of [b1]. *)
Theorem second_update_across_clock_change :
  ∃ b1 s3 b2 s4,
    Usecases.update_beatmap (Scenario.old "A" PENDING false)
      (Scenario.env_in Scenario.europe_paris 1679792397 [Scenario.record "A" "0"])
      Scenario.start
    = (Return (Some b1), s3)
    ∧ Usecases.status b1 = PENDING
    ∧ spec_interval (Usecases.status b1) = Some 600
    ∧ Usecases.last_update b1 = 1679792399
    ∧ Usecases.clock
        (Scenario.env_in Scenario.europe_paris 1679792397
           [Scenario.record "A" "0"])
        (Usecases.ticks s3)
      = 1679792399 + 1
    ∧ Usecases.update_beatmap b1
        (Scenario.env_in Scenario.europe_paris 1679792397
           [Scenario.record "A" "0"])
        s3
      = (Return (Some b2), s4)
    ∧ b2 ≠ b1
    ∧ Usecases.last_update b2 = 1679792402
    ∧ Usecases.executed s4
      = Usecases.executed s3
        ++ [(Usecases.REPLACE_INTO_beatmaps, Usecases.save_values b2)]
    ∧ Usecases.status b2 = Usecases.status b1
    ∧ Usecases.frozen b2 = Usecases.frozen b1.
Proof.
  pose (b1 := Usecases.set_last_update 1679792399
                (Usecases.keep_stats (Scenario.old "A" PENDING false)
                   (Scenario.candidate "A" PENDING 1679792398))).
  pose (s3 := {| Usecases.ticks := 3;
                 Usecases.executed :=
                   [(Usecases.REPLACE_INTO_beatmaps, Usecases.save_values b1)];
                 Usecases.discord := [] |}).
  pose (b2 := Usecases.set_last_update 1679792402
                (Usecases.keep_stats b1
                   (Scenario.candidate "A" PENDING 1679792401))).
  pose (s4 := {| Usecases.ticks := 6;
                 Usecases.executed :=
                   Usecases.executed s3
                   ++ [(Usecases.REPLACE_INTO_beatmaps,
                        Usecases.save_values b2)];
                 Usecases.discord := [] |}).
  exists b1, s3, b2, s4.
  split; [vm_compute; reflexivity |].
  split; [reflexivity |]. split; [reflexivity |]. split; [reflexivity |].
  split; [reflexivity |].
  split; [vm_compute; reflexivity |].
  split; [intros H; apply (f_equal Usecases.last_update) in H;
          discriminate H |].
  split; [reflexivity |].
  split; [reflexivity |].
  split; reflexivity.
Qed.

(** * Further properties of the code *)

(** ** The dataclass *)

(** X1: a beatmap has a leaderboard exactly when its status is Ranked,
    Approved, Qualified or Loved; a beatmap that gives pp has a
    leaderboard; and for a beatmap with a leaderboard [deserves_update]
    returns, it does not raise. *)
Theorem leaderboard_statuses (b : Model.Beatmap) :
  (Model.has_leaderboard b = true
   ↔ Model.status b ∈ [RANKED; APPROVED; QUALIFIED; LOVED])
  ∧ (Model.gives_pp b = true → Model.has_leaderboard b = true)
  ∧ (Model.has_leaderboard b = true →
     ∀ utcoffset now,
       ∃ due : bool, Model.deserves_update b utcoffset now = Return due).
Proof.
  unfold Model.has_leaderboard, Model.gives_pp, Model.deserves_update.
  rewrite !elem_of_cons, elem_of_nil.
  destruct (Model.status b); cbn; (split; [| split]);
    try (intros; discriminate); try (intros; eexists; reflexivity);
    try reflexivity.
  all: split; [intros; tauto || discriminate | intros H].
  all: destruct H as [H | [H | [H | [H | H]]]]; try discriminate H; done.
Qed.

Lemma getitem_weaken (m1 m2 : gmap string Value) key v :
  m1 ⊆ m2 → m1 !! key = Some v → getitem m2 key = Return v.
Proof.
  intros Hsub Hkey. unfold getitem.
  by rewrite (lookup_weaken _ _ _ _ Hkey Hsub).
Qed.

Lemma from_mapping_weaken (e : Model.Beatmap) (mapping : gmap string Value) :
  Model.to_dict e ⊆ mapping → Model.from_mapping mapping = Return e.
Proof.
  intros Hsub.
  destruct e as [md5 id set_id song_name status plays passes mode od ar
                 d_std d_taiko d_ctb d_mania hit_length last_update
                 max_combo bpm filename frozen rating].
  unfold Model.from_mapping.
  repeat match goal with
         | |- context [getitem mapping ?key] =>
             rewrite (getitem_weaken _ _ key _ Hsub eq_refl)
         end.
  destruct status, mode, rating; reflexivity.
Qed.

Lemma getitem_delete_eq (m : gmap string Value) key :
  getitem (delete key m) key = Raise (KeyError key).
Proof. unfold getitem. by rewrite lookup_delete_eq. Qed.

Lemma getitem_delete_ne (m1 m2 : gmap string Value) key k v :
  key ≠ k → m1 ⊆ m2 → m1 !! k = Some v → getitem (delete key m2) k = Return v.
Proof.
  intros Hne Hsub Hk. unfold getitem.
  rewrite lookup_delete_ne by done.
  by rewrite (lookup_weaken _ _ _ _ Hk Hsub).
Qed.

(** X2: [from_mapping] reads the 21 keys of [to_dict] and no other: a
    mapping that holds what [to_dict(e)] holds, and any other keys besides
    (a row with more columns), is read as [e]; with any one of the 21 keys
    taken away the mapping is not read: [from_mapping] raises the
    [KeyError] of that key. *)
Theorem from_mapping_reads_its_keys
    (e : Model.Beatmap) (mapping : gmap string Value) :
  Model.to_dict e ⊆ mapping →
  Model.from_mapping mapping = Return e
  ∧ ∀ key, is_Some (Model.to_dict e !! key) →
      Model.from_mapping (delete key mapping) = Raise (KeyError key).
Proof.
  intros Hsub. split; [by apply from_mapping_weaken |].
  intros key [v Hkey].
  destruct e as [md5 id set_id song_name status plays passes mode od ar
                 d_std d_taiko d_ctb d_mania hit_length last_update
                 max_combo bpm filename frozen rating].
  unfold Model.to_dict in Hkey. apply elem_of_list_to_map_2 in Hkey.
  unfold Model.from_mapping.
  repeat (apply elem_of_cons in Hkey as [Heq | Hkey];
          [injection Heq as -> _;
           match goal with
           | |- _ = Raise (KeyError ?key) =>
               rewrite (getitem_delete_eq mapping key)
           end;
           repeat match goal with
             | |- context [getitem (delete ?key mapping) ?k] =>
                 rewrite (getitem_delete_ne _ _ key k _
                            ltac:(discriminate) Hsub eq_refl)
             end;
           destruct status, mode; reflexivity |]).
  apply elem_of_nil in Hkey. destruct Hkey.
Qed.

Lemma from_mapping_reads_its_keys_witness :
  Model.from_mapping (<["rankedby" := VInt 1001]> (Model.to_dict Scenario.stored))
  = Return Scenario.stored
  ∧ Model.from_mapping
      (delete "beatmap_md5"
         (<["rankedby" := VInt 1001]> (Model.to_dict Scenario.stored)))
    = Raise (KeyError "beatmap_md5").
Proof.
  destruct (from_mapping_reads_its_keys Scenario.stored
              (<["rankedby" := VInt 1001]> (Model.to_dict Scenario.stored)))
    as [Hread Hlacks].
  - apply insert_subseteq. reflexivity.
  - split; [exact Hread |].
    apply Hlacks. vm_compute. eexists. reflexivity.
Defined.

(** X22: the seven members of [Status] have seven values, the integers
    from -1 to 5: [Status(n)] is the member whose value is [n], it returns
    exactly for those seven integers and raises [ValueError] for every
    other. *)
Theorem status_of_value (n : Z) :
  (∀ s, StatusEnum.call n = Return s ↔ StatusEnum.value s = n)
  ∧ ((∃ s, StatusEnum.call n = Return s) ↔ -1 <= n <= 5)
  ∧ (n < -1 ∨ 5 < n → ∃ msg, StatusEnum.call n = Raise (ValueError msg)).
Proof.
  split; [| split].
  - intros s. split; [apply StatusEnum_value_call |].
    intros <-. by destruct s.
  - split.
    + intros [s Hs]. apply StatusEnum_value_call in Hs as <-.
      destruct s; cbn; lia.
    + intros Hn.
      assert (n = -1 ∨ n = 0 ∨ n = 1 ∨ n = 2 ∨ n = 3 ∨ n = 4 ∨ n = 5)
        as Hcases by lia.
      destruct Hcases as [-> | [-> | [-> | [-> | [-> | [-> | ->]]]]]];
        eexists; reflexivity.
  - intros Hn. unfold StatusEnum.call.
    destruct (List.find _ _) as [s |] eqn:Hfind; [| by eexists].
    apply find_some in Hfind as [_ Hs]. apply Z.eqb_eq in Hs.
    destruct s; cbn in Hs; lia.
Qed.

(** ** The parse adapter, continued *)

Section ParseMore.

Import Usecases.
Local Open Scope py_scope.

Lemma parse_one_parsed_from r env s b s' :
  parse_one r env s = (Return b, s') → parsed_from env r b.
Proof.
  unfold parse_one. intros H. run_inv H.
  all: repeat match goal with
         | Hget : getitem _ _ = Return _ |- _ =>
             apply getitem_Return in Hget
         | Hget : Result_bind (getitem _ _) _ = Return _ |- _ =>
             let v := fresh "v" in
             let Has := fresh "Has" in
             apply Result_bind_Return in Hget as (v & Hget & Has)
         end.
  all: match goal with
       | Has : as_str ?v = Return _ |- _ =>
           destruct v; try discriminate Has; injection Has as <-
       end.
  all: split; cbn;
    try (unfold getitem;
         repeat match goal with
                | Hr : _ !! _ = Some _ |- context [_ !! _] => rewrite Hr; cbn
                end;
         first [assumption | reflexivity]).
  all: try (eexists; reflexivity).
  all: try (repeat match goal with
                   | Hcond : truthy _ = _ |- _ => rewrite Hcond; clear Hcond
                   end;
            first [ assumption
                  | reflexivity
                  | match goal with
                    | Hf : py_float _ _ = Return _ |- _ => by rewrite Hf
                    end ]).
  all: intros key Hkey;
    repeat (apply elem_of_cons in Hkey as [-> | Hkey]; [by eexists |]);
    by apply elem_of_nil in Hkey.
Qed.

Lemma parse_loop_Forall2 l : ∀ maps env s result s',
  parse_loop l maps env s = (Return result, s') →
  ∃ new, result = maps ++ new ∧ Forall2 (parsed_from env) l new.
Proof.
  induction l as [| r l IH]; intros maps env s result s' H;
    cbn [parse_loop] in H.
  - run_inv H. exists []. by rewrite app_nil_r.
  - apply bind_Return in H as (b & s1 & Hone & H).
    apply parse_one_parsed_from in Hone.
    apply IH in H as (new & -> & Hall).
    exists (b :: new). rewrite <- app_assoc. split; [reflexivity |].
    by constructor.
Qed.

(** What [parse_loop] does with the beatmaps it was given: it returns
    them in front of the ones it parses. *)
Lemma parse_loop_acc l : ∀ maps env s,
  parse_loop l maps env s
  = match parse_loop l [] env s with
    | (Return new, s') => (Return (maps ++ new), s')
    | (Raise e, s') => (Raise e, s')
    end.
Proof.
  induction l as [| r l IH]; intros maps env s; cbn [parse_loop].
  - unfold ret. by rewrite app_nil_r.
  - unfold bind. destruct (parse_one r env s) as [[b | e] s1]; [| reflexivity].
    rewrite (IH (maps ++ [b])), (IH ([] ++ [b])).
    destruct (parse_loop l [] env s1) as [[new | e] s2]; [| reflexivity].
    by rewrite <- app_assoc.
Qed.

End ParseMore.

(** X3: the objects of a response are parsed one after the other: parsing
    [l1 ++ l2] is parsing [l1] and then [l2], and gives the beatmaps of the
    one followed by those of the other.  When an object makes the parse
    raise, the whole call raises that exception, whatever was parsed before
    and whatever follows: no list is returned. *)
Theorem parse_from_osu_api_app (l1 l2 : list (gmap string Value)) env s :
  Usecases.parse_from_osu_api (l1 ++ l2) env s
  = match Usecases.parse_from_osu_api l1 env s with
    | (Return maps1, s1) =>
        match Usecases.parse_from_osu_api l2 env s1 with
        | (Return maps2, s2) => (Return (maps1 ++ maps2), s2)
        | (Raise e, s2) => (Raise e, s2)
        end
    | (Raise e, s1) => (Raise e, s1)
    end.
Proof.
  unfold Usecases.parse_from_osu_api.
  generalize (@nil Usecases.Beatmap) at 1 2 as maps. revert s.
  induction l1 as [| r l1 IH]; intros s maps; cbn [app Usecases.parse_loop].
  - unfold Usecases.ret. apply parse_loop_acc.
  - unfold Usecases.bind.
    destruct (Usecases.parse_one r env s) as [[b | e] s1]; [| reflexivity].
    apply IH.
Qed.

(** X4: when [parse_from_osu_api] returns, every object of the response
    had all the keys the parser indexes; an object that lacks one of them
    makes the whole parse raise. *)
Theorem parse_needs_required_keys
    (response_json_list : list (gmap string Value)) env s r key :
  r ∈ response_json_list →
  key ∈ required_keys →
  r !! key = None →
  ∃ e s', Usecases.parse_from_osu_api response_json_list env s = (Raise e, s').
Proof.
  intros Hr Hkey Hnone.
  destruct (Usecases.parse_from_osu_api response_json_list env s)
    as [[maps | e] s'] eqn:Hparse; [| by eauto].
  apply parse_loop_Forall2 in Hparse as (new & _ & Hall).
  apply list_elem_of_lookup in Hr as [i Hi].
  destruct (Forall2_lookup_l _ _ _ _ _ Hall Hi) as (b & _ & Hb).
  destruct (parsed_keys _ _ _ Hb key Hkey) as [v Hv]. congruence.
Qed.

Lemma parse_needs_required_keys_witness :
  ∃ e s',
    Usecases.parse_from_osu_api
      [Scenario.record "A" "1"; delete "approved" (Scenario.record "B" "1")]
      (Scenario.env 1700000000 []) Scenario.start
    = (Raise e, s').
Proof.
  apply (parse_needs_required_keys _ _ _
           (delete "approved" (Scenario.record "B" "1")) "approved").
  - apply list_elem_of_further, list_elem_of_here.
  - unfold required_keys.
    repeat first [apply list_elem_of_here | apply list_elem_of_further].
  - apply lookup_delete_eq.
Defined.

Section Names.

Import Usecases.

Lemma translate_removes (text : string) (table : list ascii) (c : ascii) :
  c ∈ table → c ∉ list_ascii_of_string (translate text table).
Proof.
  intros Hc. induction text as [| c' rest IH]; cbn.
  - apply not_elem_of_nil.
  - destruct (existsb (Ascii.eqb c') table) eqn:Hex; [exact IH |].
    cbn. apply not_elem_of_cons. split; [| exact IH].
    intros ->. apply not_true_iff_false in Hex. apply Hex.
    apply existsb_exists. exists c'. split.
    + by apply list_elem_of_In.
    + apply Ascii.eqb_refl.
Qed.

(** What [translate] keeps: a text with none of the characters of the
    table is returned as it is. *)
Lemma translate_clean (text : string) (table : list ascii) :
  (∀ c, c ∈ table → c ∉ list_ascii_of_string text) →
  translate text table = text.
Proof.
  induction text as [| c' rest IH]; cbn; intros Hclean; [reflexivity |].
  destruct (existsb (Ascii.eqb c') table) eqn:Hex.
  - apply existsb_exists in Hex as (c & Hin & Heq).
    apply Ascii.eqb_eq in Heq as <-.
    destruct (Hclean c'); [by apply list_elem_of_In | apply list_elem_of_here].
  - f_equal. apply IH. intros c Hc Hin.
    apply (Hclean c Hc). by apply list_elem_of_further.
Qed.

End Names.

(** X5: the [filename] and the [song_name] of every beatmap that
    [parse_from_osu_api] returns contain none of the nine characters of
    [IGNORED_BEATMAP_CHARS] (colon, backslash, slash, star, angle brackets,
    question mark, double quote, bar), whatever the artist, title, creator
    and version of the response contain. *)
Theorem parsed_names_are_sanitized
    (response_json_list : list (gmap string Value)) env s maps s' b c :
  Usecases.parse_from_osu_api response_json_list env s = (Return maps, s') →
  b ∈ maps →
  c ∈ Usecases.IGNORED_BEATMAP_CHARS →
  (c ∉ list_ascii_of_string (Usecases.filename b))
  ∧ (c ∉ list_ascii_of_string (Usecases.song_name b)).
Proof.
  intros Hparse Hb Hc.
  apply parse_loop_Forall2 in Hparse as (new & -> & Hall).
  cbn [app] in Hb. apply list_elem_of_lookup in Hb as [i Hi].
  destruct (Forall2_lookup_r _ _ _ _ _ Hall Hi) as (r & _ & Hr).
  destruct (parsed_filename _ _ _ Hr) as [text1 ->].
  destruct (parsed_song_name _ _ _ Hr) as [text2 ->].
  split; by apply translate_removes.
Qed.

Lemma parsed_names_are_sanitized_witness :
  ∃ b s',
    Usecases.parse_from_osu_api [Scenario.record "B" "1"]
      (Scenario.env 1700000000 []) Scenario.start = (Return [b], s')
    ∧ Usecases.song_name b = "xi - FREEDOM DiVE [FOUR DIMENSIONS]"
    ∧ ("?"%char ∉ list_ascii_of_string (Usecases.filename b))
    ∧ ("?"%char ∉ list_ascii_of_string (Usecases.song_name b)).
Proof.
  eexists. eexists. split; [vm_compute; reflexivity |].
  split; [reflexivity |].
  apply (parsed_names_are_sanitized [Scenario.record "B" "1"]
           (Scenario.env 1700000000 []) Scenario.start _ _ _ "?"%char eq_refl).
  - apply list_elem_of_here.
  - unfold Usecases.IGNORED_BEATMAP_CHARS.
    repeat first [apply list_elem_of_here | apply list_elem_of_further].
Defined.

(** X6: the beatmaps that [parse_from_osu_api] returns are those of the
    objects of the response, in their order: the i-th has the [file_md5] of
    the i-th object as [md5] and the integers of its [beatmap_id] and
    [beatmapset_id] as [id] and [set_id].  It has [max_combo = 0] when the
    object has no [max_combo], or null, an empty string or zero, and
    [bpm = 0] likewise: such a value is not converted.  Its
    [bancho_ranked_status] is its status. *)
Theorem parsed_fields_of_record
    (response_json_list : list (gmap string Value)) env s maps s'
    (i : nat) r b :
  Usecases.parse_from_osu_api response_json_list env s = (Return maps, s') →
  response_json_list !! i = Some r →
  maps !! i = Some b →
  r !! "file_md5" = Some (VStr (Usecases.md5 b))
  ∧ Result_bind (getitem r "beatmap_id") (Usecases.py_int env)
    = Return (Usecases.id b)
  ∧ Result_bind (getitem r "beatmapset_id") (Usecases.py_int env)
    = Return (Usecases.set_id b)
  ∧ ((r !! "max_combo") ∈ [None; Some VNone; Some (VStr ""); Some (VInt 0)] →
     Usecases.max_combo b = 0)
  ∧ ((r !! "bpm") ∈ [None; Some VNone; Some (VStr ""); Some (VInt 0)] →
     Usecases.bpm b = 0)
  ∧ Usecases.bancho_ranked_status b = Some (Usecases.status b).
Proof.
  intros Hparse Hr Hb.
  apply parse_loop_Forall2 in Hparse as (new & -> & Hall).
  cbn [app] in Hb.
  destruct (Forall2_lookup_l _ _ _ _ _ Hall Hr) as (b' & Hb' & Hfrom).
  rewrite Hb in Hb'. injection Hb' as <-.
  destruct Hfrom as [_ Hmd5 Hid Hset Hcombo Hbpm Hbancho _ _].
  assert (∀ key, (r !! key) ∈ [None; Some VNone; Some (VStr ""); Some (VInt 0)] →
                 Usecases.truthy (Usecases.get r key) = false) as Hfalsy.
  { intros key Hin. unfold Usecases.get.
    repeat (apply elem_of_cons in Hin as [-> | Hin]; [reflexivity |]).
    by apply elem_of_nil in Hin. }
  repeat split; try assumption.
  - intros Hin. rewrite (Hfalsy _ Hin) in Hcombo. by injection Hcombo.
  - intros Hin. rewrite (Hfalsy _ Hin) in Hbpm. by injection Hbpm.
Qed.

Lemma parsed_fields_of_record_witness :
  ∃ b s',
    Usecases.parse_from_osu_api
      [<["max_combo" := VNone]> (delete "bpm" (Scenario.record "B" "1"))]
      (Scenario.env 1700000000 []) Scenario.start = (Return [b], s')
    ∧ Usecases.md5 b = "B"
    ∧ Usecases.max_combo b = 0
    ∧ Usecases.bpm b = 0
    ∧ Usecases.bancho_ranked_status b = Some RANKED.
Proof.
  destruct (Usecases.parse_from_osu_api
              [<["max_combo" := VNone]> (delete "bpm" (Scenario.record "B" "1"))]
              (Scenario.env 1700000000 []) Scenario.start)
    as [[maps | e] s'] eqn:Hrun;
    pose proof Hrun as Hvalue; vm_compute in Hvalue;
    [injection Hvalue as <- <- | discriminate Hvalue].
  destruct (parsed_fields_of_record _ _ _ _ _ 0%nat _ _ Hrun eq_refl eq_refl)
    as (_ & _ & _ & Hcombo & Hbpm & Hbancho).
  eexists. eexists. split; [reflexivity |].
  split; [reflexivity |].
  split; [apply Hcombo; apply list_elem_of_further, list_elem_of_here |].
  split; [apply Hbpm; apply list_elem_of_here |].
  exact Hbancho.
Defined.

(** X21: deleting the characters of a table from a text leaves a text
    that has none of them, keeps a text that has none of them as it is, and
    so does nothing when it is done a second time. *)
Theorem translate_idempotent (text : string) (table : list ascii) :
  (∀ c, c ∈ table →
        c ∉ list_ascii_of_string (Usecases.translate text table))
  ∧ ((∀ c, c ∈ table → c ∉ list_ascii_of_string text) →
     Usecases.translate text table = text)
  ∧ Usecases.translate (Usecases.translate text table) table
    = Usecases.translate text table.
Proof.
  split; [| split].
  - intros c. apply translate_removes.
  - apply translate_clean.
  - apply translate_clean. intros c. apply translate_removes.
Qed.

(** ** The requests to the API *)

Section Requests.

Import Usecases.
Local Open Scope py_scope.

Lemma id_from_api_get_beatmaps id' flag :
  id_from_api id' flag
  = get_beatmaps ("b", VInt id') flag
      (List.find (fun beatmap => id beatmap =? id')).
Proof. reflexivity. Qed.

Lemma md5_from_api_get_beatmaps md5' flag :
  md5_from_api md5' flag
  = get_beatmaps ("h", VStr md5') flag
      (List.find (fun beatmap => String.eqb (md5 beatmap) md5')).
Proof. reflexivity. Qed.

Lemma set_from_api_get_beatmaps id' flag :
  set_from_api id' flag = get_beatmaps ("s", VInt id') flag Some.
Proof. reflexivity. Qed.

Lemma save_all_run beatmaps : ∀ env s,
  save_all beatmaps env s
  = (Return (),
     {| ticks := ticks s;
        executed := executed s ++ saves beatmaps;
        discord := discord s |}).
Proof.
  induction beatmaps as [| b rest IH]; intros env s; cbn [save_all saves map].
  - unfold ret. rewrite app_nil_r. by destruct s.
  - unfold bind, save, database_execute. rewrite IH. cbn.
    by rewrite <- app_assoc.
Qed.

Lemma random_choice_run (seq : list string) env s :
  match seq with
  | [] => random_choice seq env s = (Raise IndexError, s)
  | _ => ∃ x, x ∈ seq ∧ random_choice seq env s = (Return x, s)
  end.
Proof.
  unfold random_choice, bind, ask, ret, raise, lift.
  destruct seq as [| x0 rest]; [by rewrite lookup_nil |].
  destruct (lookup_lt_is_Some_2 (x0 :: rest)
              (random_draw env mod length (x0 :: rest))%nat) as [x Hx].
  { apply Nat.mod_upper_bound. discriminate. }
  exists x. rewrite Hx. split; [| reflexivity].
  apply list_elem_of_lookup. eauto.
Qed.

(** A request either returns [None] and changes nothing, or returns what
    [finish] makes of the beatmaps parsed from a response that is not
    empty, after it has saved them if it was asked to. *)
Lemma get_beatmaps_Return {R} query flag (finish : list Beatmap → option R)
    env s result s' :
  get_beatmaps query flag finish env s = (Return result, s') →
  (result = None ∧ s' = s)
  ∨ (∃ response_json beatmaps s1,
        response_json ≠ []
        ∧ parse_from_osu_api response_json env s = (Return beatmaps, s1)
        ∧ result = finish beatmaps
        ∧ s' = {| ticks := ticks s1;
                  executed := executed s ++ (if flag then saves beatmaps else []);
                  discord := discord s |}).
Proof.
  unfold get_beatmaps. intros H.
  apply bind_Return in H as (env' & s0 & Hask & H). run_inv Hask.
  apply bind_Return in H as (api_key & s1 & Hkey & H).
  pose proof (random_choice_run (API_KEYS_POOL env) env s) as Hchoice.
  destruct (API_KEYS_POOL env); [congruence |].
  destruct Hchoice as (x & _ & Hx). rewrite Hx in Hkey.
  injection Hkey as _ <-.
  apply bind_Return in H as (response & s2 & Hget & H). run_inv Hget.
  destruct (status_code response =? 404).
  { left. run_inv H. done. }
  destruct (status_code response =? 403); [discriminate H |].
  apply bind_Return in H as (? & s3 & Hstatus & H). run_inv Hstatus.
  apply bind_Return in H as (response_json & s4 & Hjson & H). run_inv Hjson.
  destruct response_json as [| r0 rest].
  { left. run_inv H. done. }
  right.
  apply bind_Return in H as (beatmaps & s5 & Hparse & H).
  exists (r0 :: rest), beatmaps, s5. split; [discriminate |].
  split; [exact Hparse |].
  destruct (quiet_parse_from_osu_api (r0 :: rest) env s) as (He & Hd & _).
  rewrite Hparse in He, Hd. cbn in He, Hd.
  apply bind_Return in H as (? & s6 & Hsave & H). run_inv H.
  split; [reflexivity |].
  destruct flag.
  - rewrite save_all_run in Hsave. injection Hsave as _ <-.
    by rewrite He, Hd.
  - run_inv Hsave. rewrite app_nil_r, <- He, <- Hd. by destruct s5.
Qed.

(** A request that raises has saved nothing. *)
Lemma get_beatmaps_Raise {R} query flag (finish : list Beatmap → option R)
    env s e s' :
  get_beatmaps query flag finish env s = (Raise e, s') →
  executed s' = executed s ∧ discord s' = discord s.
Proof.
  unfold get_beatmaps, bind, ask, lift, raise, ret.
  pose proof (random_choice_run (API_KEYS_POOL env) env s) as Hchoice.
  destruct (API_KEYS_POOL env).
  { rewrite Hchoice. by intros [= _ <-]. }
  destruct Hchoice as (x & _ & ->).
  destruct (http_client_get env _ _) as [response |]; [| by intros [= _ <-]].
  destruct (status_code response =? 404); [discriminate |].
  destruct (status_code response =? 403); [by intros [= _ <-] |].
  destruct (raise_for_status response); [| by intros [= _ <-]].
  destruct (json response) as [[| r0 rest] |];
    [discriminate | | by intros [= _ <-]].
  destruct (quiet_parse_from_osu_api (r0 :: rest) env s) as (He & Hd & _).
  destruct (parse_from_osu_api (r0 :: rest) env s) as [[beatmaps |] s1];
    [| cbn in *; by intros [= _ <-]].
  destruct flag.
  - rewrite save_all_run. discriminate.
  - discriminate.
Qed.


(** With an API that answers every request with [response], a request
    runs on that response whatever key is drawn. *)
Lemma get_beatmaps_response {R} query flag (finish : list Beatmap → option R)
    env response s :
  API_KEYS_POOL env ≠ [] →
  (∀ params, http_client_get env GET_BEATMAP_URL params = Return response) →
  get_beatmaps query flag finish env s
  = if status_code response =? 404 then (Return None, s)
    else if status_code response =? 403
         then (Raise (ValueError "osu api is down"), s)
         else
           match raise_for_status response, json response with
           | Raise e, _ => (Raise e, s)
           | Return _, Raise e => (Raise e, s)
           | Return _, Return [] => (Return None, s)
           | Return _, Return response_json =>
               (beatmaps <- parse_from_osu_api response_json ;;
                (if flag then save_all beatmaps else ret ()) ;;
                ret (finish beatmaps)) env s
           end.
Proof.
  intros Hpool Hget. unfold get_beatmaps.
  unfold bind at 1. unfold ask at 1. unfold bind at 1.
  pose proof (random_choice_run (API_KEYS_POOL env) env s) as Hchoice.
  destruct (API_KEYS_POOL env); [done |].
  destruct Hchoice as (x & _ & ->).
  unfold bind at 1. rewrite Hget. unfold lift at 1.
  destruct (status_code response =? 404); [reflexivity |].
  destruct (status_code response =? 403); [reflexivity |].
  unfold bind at 1. unfold lift at 1.
  destruct (raise_for_status response); [| reflexivity].
  unfold bind at 1. unfold lift at 1.
  destruct (json response) as [[| r0 rest] |]; reflexivity.
Qed.

Lemma get_beatmaps_no_key {R} query flag (finish : list Beatmap → option R)
    env s :
  API_KEYS_POOL env = [] →
  get_beatmaps query flag finish env s = (Raise IndexError, s).
Proof.
  intros Hpool. unfold get_beatmaps, bind, ask.
  pose proof (random_choice_run (API_KEYS_POOL env) env s) as Hchoice.
  rewrite Hpool in *. by rewrite Hchoice.
Qed.

Lemma random_choice_lookup (seq : list string) env s x :
  seq !! (random_draw env mod length seq)%nat = Some x →
  random_choice seq env s = (Return x, s).
Proof.
  intros Hx. unfold random_choice, bind, ask, ret. by rewrite Hx.
Qed.

Lemma get_beatmaps_run {R} query flag (finish : list Beatmap → option R)
    env s api_key response response_json beatmaps s1 :
  API_KEYS_POOL env !! (random_draw env mod length (API_KEYS_POOL env))%nat
  = Some api_key →
  http_client_get env GET_BEATMAP_URL (list_to_map [("k", VStr api_key); query])
  = Return response →
  status_code response ≠ 404 →
  status_code response ≠ 403 →
  raise_for_status response = Return () →
  json response = Return response_json →
  response_json ≠ [] →
  parse_from_osu_api response_json env s = (Return beatmaps, s1) →
  get_beatmaps query flag finish env s
  = (Return (finish beatmaps),
     {| ticks := ticks s1;
        executed := executed s ++ (if flag then saves beatmaps else []);
        discord := discord s |}).
Proof.
  intros Hkey Hget H404 H403 Hstatus Hjson Hne Hparse.
  unfold get_beatmaps.
  unfold bind at 1. unfold ask at 1. unfold bind at 1.
  rewrite (random_choice_lookup _ _ _ _ Hkey).
  unfold bind at 1. rewrite Hget. unfold lift at 1.
  apply Z.eqb_neq in H404, H403. rewrite H404, H403.
  unfold bind at 1. rewrite Hstatus. unfold lift at 1.
  unfold bind at 1. rewrite Hjson. unfold lift at 1.
  destruct response_json as [| r0 rest]; [done |].
  destruct (quiet_parse_from_osu_api (r0 :: rest) env s) as (He & Hd & _).
  rewrite Hparse in He, Hd. cbn in He, Hd.
  unfold bind at 1. rewrite Hparse.
  destruct flag.
  - unfold bind at 1. rewrite save_all_run. unfold ret.
    by rewrite He, Hd.
  - unfold bind, ret. rewrite app_nil_r, <- He, <- Hd. by destruct s1.
Qed.

Lemma parse_from_osu_api_length l env s beatmaps s' :
  parse_from_osu_api l env s = (Return beatmaps, s') →
  length beatmaps = length l.
Proof.
  intros H. apply parse_loop_Forall2 in H as (new & -> & Hall).
  symmetry. by apply Forall2_length in Hall.
Qed.

End Requests.

(** X7: what the three requests return and save.  When the API answers
    the request that [id_from_api], [md5_from_api] or [set_from_api] makes
    (the key drawn from the pool under [k], and what is asked for under
    [b], [h] or [s]) with a status that is neither 404 nor 403 and passes
    [raise_for_status], and with a list of objects that is not empty and
    parses, the statements executed are the [REPLACE] of every beatmap
    parsed, in their order, if the call has the flag, and none otherwise;
    no notification is sent.  [id_from_api] returns the first of those
    beatmaps that has the id asked for, [md5_from_api] the first that has
    the checksum asked for, and [set_from_api] all of them, which are at
    least one. *)
Theorem requests_save_what_they_parse
    (flag : bool) env s api_key response response_json beatmaps s1 :
  Usecases.API_KEYS_POOL env
    !! (Usecases.random_draw env mod length (Usecases.API_KEYS_POOL env))%nat
  = Some api_key →
  Usecases.status_code response ≠ 404 →
  Usecases.status_code response ≠ 403 →
  Usecases.raise_for_status response = Return () →
  Usecases.json response = Return response_json →
  response_json ≠ [] →
  Usecases.parse_from_osu_api response_json env s = (Return beatmaps, s1) →
  let s' :=
    {| Usecases.ticks := Usecases.ticks s1;
       Usecases.executed :=
         Usecases.executed s ++ (if flag then saves beatmaps else []);
       Usecases.discord := Usecases.discord s |} in
  beatmaps ≠ []
  ∧ (∀ id',
        Usecases.http_client_get env Usecases.GET_BEATMAP_URL
          (list_to_map [("k", VStr api_key); ("b", VInt id')])
        = Return response →
        Usecases.id_from_api id' flag env s
        = (Return (List.find (fun b => Usecases.id b =? id') beatmaps), s'))
  ∧ (∀ md5',
        Usecases.http_client_get env Usecases.GET_BEATMAP_URL
          (list_to_map [("k", VStr api_key); ("h", VStr md5')])
        = Return response →
        Usecases.md5_from_api md5' flag env s
        = (Return
             (List.find (fun b => String.eqb (Usecases.md5 b) md5') beatmaps),
           s'))
  ∧ (∀ id',
        Usecases.http_client_get env Usecases.GET_BEATMAP_URL
          (list_to_map [("k", VStr api_key); ("s", VInt id')])
        = Return response →
        Usecases.set_from_api id' flag env s = (Return (Some beatmaps), s')).
Proof.
  intros Hkey H404 H403 Hstatus Hjson Hne Hparse s'.
  split; [| split; [| split]].
  - apply parse_from_osu_api_length in Hparse.
    destruct beatmaps; [| discriminate]. by destruct response_json.
  - intros id' Hget. rewrite id_from_api_get_beatmaps.
    by eapply get_beatmaps_run.
  - intros md5' Hget. rewrite md5_from_api_get_beatmaps.
    by eapply get_beatmaps_run.
  - intros id' Hget. rewrite set_from_api_get_beatmaps.
    by eapply (get_beatmaps_run _ _ Some).
Qed.

Lemma requests_save_what_they_parse_witness :
  ∃ beatmaps s1,
    Usecases.parse_from_osu_api
      [Scenario.record "Z" "1"; Scenario.record "B" "1"]
      (Scenario.env 1700000000
         [Scenario.record "Z" "1"; Scenario.record "B" "1"])
      Scenario.start
    = (Return beatmaps, s1)
    ∧ length beatmaps = 2%nat
    ∧ Usecases.id_from_api 42 true
        (Scenario.env 1700000000
           [Scenario.record "Z" "1"; Scenario.record "B" "1"])
        Scenario.start
      = (Return (List.find (fun b => Usecases.id b =? 42) beatmaps),
         {| Usecases.ticks := Usecases.ticks s1;
            Usecases.executed := saves beatmaps;
            Usecases.discord := [] |}).
Proof.
  destruct (Usecases.parse_from_osu_api
              [Scenario.record "Z" "1"; Scenario.record "B" "1"]
              (Scenario.env 1700000000
                 [Scenario.record "Z" "1"; Scenario.record "B" "1"])
              Scenario.start)
    as [[beatmaps | e] s1] eqn:Hparse;
    pose proof Hparse as Hvalue; vm_compute in Hvalue;
    [| discriminate Hvalue].
  exists beatmaps, s1. split; [reflexivity |].
  split; [by injection Hvalue as <- _ |].
  destruct (requests_save_what_they_parse true
              (Scenario.env 1700000000
                 [Scenario.record "Z" "1"; Scenario.record "B" "1"])
              Scenario.start "key"
              {| Usecases.status_code := 200;
                 Usecases.raise_for_status := Return ();
                 Usecases.json :=
                   Return [Scenario.record "Z" "1"; Scenario.record "B" "1"] |}
              [Scenario.record "Z" "1"; Scenario.record "B" "1"]
              beatmaps s1)
    as (_ & Hid & _);
    [reflexivity | discriminate | discriminate | reflexivity | reflexivity
    | discriminate | exact Hparse |].
  exact (Hid 42 eq_refl).
Defined.


(** X8: a request that raises, for whatever reason (no API key, an error
    of the HTTP client, status 403 or another error status, a body that is
    not JSON, an object that does not parse), has executed no statement
    and sent no notification: nothing of a response is saved unless all of
    it parses. *)
Theorem failed_request_saves_nothing (flag : bool) env s e s' :
  (∀ id', Usecases.id_from_api id' flag env s = (Raise e, s') →
          Usecases.executed s' = Usecases.executed s
          ∧ Usecases.discord s' = Usecases.discord s)
  ∧ (∀ md5', Usecases.md5_from_api md5' flag env s = (Raise e, s') →
             Usecases.executed s' = Usecases.executed s
             ∧ Usecases.discord s' = Usecases.discord s)
  ∧ (∀ id', Usecases.set_from_api id' flag env s = (Raise e, s') →
            Usecases.executed s' = Usecases.executed s
            ∧ Usecases.discord s' = Usecases.discord s).
Proof.
  split; [| split]; intros key H.
  - rewrite id_from_api_get_beatmaps in H. by eapply get_beatmaps_Raise.
  - rewrite md5_from_api_get_beatmaps in H. by eapply get_beatmaps_Raise.
  - rewrite set_from_api_get_beatmaps in H. by eapply get_beatmaps_Raise.
Qed.

Lemma failed_request_saves_nothing_witness :
  ∃ e s',
    Usecases.id_from_api 42 true
      (Scenario.env 1700000000
         [Scenario.record "A" "1"; delete "approved" (Scenario.record "B" "1")])
      Scenario.start
    = (Raise e, s')
    ∧ Usecases.executed s' = []
    ∧ Usecases.discord s' = [].
Proof.
  destruct (Usecases.id_from_api 42 true
              (Scenario.env 1700000000
                 [Scenario.record "A" "1";
                  delete "approved" (Scenario.record "B" "1")])
              Scenario.start)
    as [[result | e] s'] eqn:Hrun;
    pose proof Hrun as Hvalue; vm_compute in Hvalue;
    [discriminate Hvalue |].
  exists e, s'. split; [reflexivity |].
  destruct (failed_request_saves_nothing true
              (Scenario.env 1700000000
                 [Scenario.record "A" "1";
                  delete "approved" (Scenario.record "B" "1")])
              Scenario.start e s') as [Hid _].
  exact (Hid 42 Hrun).
Defined.


(** X9: when the API answers with status 404, or with a success status
    and an empty list, the three requests return [None] and change nothing,
    with or without the flag.  The status 404 is tested before
    [raise_for_status]: it is no error. *)
Theorem request_not_found env response :
  Usecases.API_KEYS_POOL env ≠ [] →
  (∀ params,
      Usecases.http_client_get env Usecases.GET_BEATMAP_URL params
      = Return response) →
  Usecases.status_code response = 404
  ∨ (Usecases.status_code response ≠ 403
     ∧ Usecases.raise_for_status response = Return ()
     ∧ Usecases.json response = Return []) →
  ∀ flag s,
    (∀ id', Usecases.id_from_api id' flag env s = (Return None, s))
    ∧ (∀ md5', Usecases.md5_from_api md5' flag env s = (Return None, s))
    ∧ (∀ id', Usecases.set_from_api id' flag env s = (Return None, s)).
Proof.
  intros Hpool Hget Hnone flag s.
  assert (∀ R query (finish : list Usecases.Beatmap → option R),
             get_beatmaps query flag finish env s = (Return None, s)) as Hall.
  { intros R query finish.
    rewrite (get_beatmaps_response _ _ _ _ _ _ Hpool Hget).
    destruct Hnone as [-> | (H403 & -> & ->)]; [reflexivity |].
    destruct (Usecases.status_code response =? 404); [reflexivity |].
    apply Z.eqb_neq in H403 as ->. reflexivity. }
  split; [| split]; intros key.
  - rewrite id_from_api_get_beatmaps. apply Hall.
  - rewrite md5_from_api_get_beatmaps. apply Hall.
  - rewrite set_from_api_get_beatmaps. apply Hall.
Qed.

Lemma request_not_found_witness :
  Usecases.id_from_api 42 true
    (Scenario.env_status 404 (Raise (OtherError "404 Not Found"))
       [Scenario.record "A" "1"]) Scenario.start
  = (Return None, Scenario.start)
  ∧ Usecases.set_from_api 7 true
      (Scenario.env_status 200 (Return ()) []) Scenario.start
    = (Return None, Scenario.start).
Proof.
  split.
  - apply (request_not_found
             (Scenario.env_status 404 (Raise (OtherError "404 Not Found"))
                [Scenario.record "A" "1"])
             {| Usecases.status_code := 404;
                Usecases.raise_for_status := Raise (OtherError "404 Not Found");
                Usecases.json := Return [Scenario.record "A" "1"] |}).
    + discriminate.
    + reflexivity.
    + left. reflexivity.
  - apply (request_not_found
             (Scenario.env_status 200 (Return ()) [])
             {| Usecases.status_code := 200;
                Usecases.raise_for_status := Return ();
                Usecases.json := Return [] |}).
    + discriminate.
    + reflexivity.
    + right. split; [discriminate |]. split; reflexivity.
Defined.

(** X10: when the API answers with status 403 the three requests raise
    [ValueError("osu api is down")]; with another status than 404 and 403
    for which [raise_for_status] raises, they raise its exception.  The
    state is unchanged. *)
Theorem request_refused env response :
  Usecases.API_KEYS_POOL env ≠ [] →
  (∀ params,
      Usecases.http_client_get env Usecases.GET_BEATMAP_URL params
      = Return response) →
  Usecases.status_code response ≠ 404 →
  ∀ flag s e,
    (Usecases.status_code response = 403 ∧ e = ValueError "osu api is down")
    ∨ (Usecases.status_code response ≠ 403
       ∧ Usecases.raise_for_status response = Raise e) →
    (∀ id', Usecases.id_from_api id' flag env s = (Raise e, s))
    ∧ (∀ md5', Usecases.md5_from_api md5' flag env s = (Raise e, s))
    ∧ (∀ id', Usecases.set_from_api id' flag env s = (Raise e, s)).
Proof.
  intros Hpool Hget H404 flag s e Hraised.
  assert (∀ R query (finish : list Usecases.Beatmap → option R),
             get_beatmaps query flag finish env s = (Raise e, s)) as Hall.
  { intros R query finish.
    rewrite (get_beatmaps_response _ _ _ _ _ _ Hpool Hget).
    apply Z.eqb_neq in H404 as ->.
    destruct Hraised as [[-> ->] | [H403 ->]]; [reflexivity |].
    apply Z.eqb_neq in H403 as ->. reflexivity. }
  split; [| split]; intros key.
  - rewrite id_from_api_get_beatmaps. apply Hall.
  - rewrite md5_from_api_get_beatmaps. apply Hall.
  - rewrite set_from_api_get_beatmaps. apply Hall.
Qed.

Lemma request_refused_witness :
  Usecases.md5_from_api "A" true
    (Scenario.env_status 403 (Raise (OtherError "403 Forbidden")) [])
    Scenario.start
  = (Raise (ValueError "osu api is down"), Scenario.start)
  ∧ Usecases.id_from_api 42 false
      (Scenario.env_status 500 (Raise (OtherError "500 Server Error")) [])
      Scenario.start
    = (Raise (OtherError "500 Server Error"), Scenario.start).
Proof.
  split.
  - apply (request_refused
             (Scenario.env_status 403 (Raise (OtherError "403 Forbidden")) [])
             {| Usecases.status_code := 403;
                Usecases.raise_for_status := Raise (OtherError "403 Forbidden");
                Usecases.json := Return [] |});
      [discriminate | reflexivity | discriminate | by left].
  - apply (request_refused
             (Scenario.env_status 500 (Raise (OtherError "500 Server Error")) [])
             {| Usecases.status_code := 500;
                Usecases.raise_for_status :=
                  Raise (OtherError "500 Server Error");
                Usecases.json := Return [] |});
      [discriminate | reflexivity | discriminate |].
    right. split; [discriminate | reflexivity].
Defined.

(** X11: with no API key configured, [random.choice] raises [IndexError]
    and so do the three requests, before any request is made; and
    [update_beatmap] on a beatmap that is due raises it too and deletes
    nothing. *)
Theorem no_api_key_raises env :
  Usecases.API_KEYS_POOL env = [] →
  ∀ flag s,
    (∀ id', Usecases.id_from_api id' flag env s = (Raise IndexError, s))
    ∧ (∀ md5', Usecases.md5_from_api md5' flag env s = (Raise IndexError, s))
    ∧ (∀ id', Usecases.set_from_api id' flag env s = (Raise IndexError, s))
    ∧ (∀ beatmap s1,
          Usecases.deserves_update beatmap env s = (Return true, s1) →
          Usecases.update_beatmap beatmap env s = (Raise IndexError, s1)).
Proof.
  intros Hpool flag s. split; [| split; [| split]].
  - intros key. rewrite id_from_api_get_beatmaps. by apply get_beatmaps_no_key.
  - intros key. rewrite md5_from_api_get_beatmaps. by apply get_beatmaps_no_key.
  - intros key. rewrite set_from_api_get_beatmaps. by apply get_beatmaps_no_key.
  - intros beatmap s1 Hdue. unfold Usecases.update_beatmap.
    unfold Usecases.bind at 1. rewrite Hdue. cbn [negb].
    unfold Usecases.bind at 1.
    rewrite id_from_api_get_beatmaps, get_beatmaps_no_key by done.
    reflexivity.
Qed.

Lemma no_api_key_raises_witness :
  Usecases.update_beatmap (Scenario.old "A" RANKED false)
    Scenario.env_no_key Scenario.start
  = (Raise IndexError, Usecases.tick Scenario.start).
Proof.
  apply (no_api_key_raises Scenario.env_no_key eq_refl true Scenario.start).
  reflexivity.
Defined.

(** ** Reconciliation, continued *)

Section UpdateMore.

Import Usecases.

Lemma id_from_api_parsed id' flag env s cand s' :
  id_from_api id' flag env s = (Return (Some cand), s') →
  id cand = id' ∧ ∃ r, parsed_from env r cand.
Proof.
  intros H. rewrite id_from_api_get_beatmaps in H.
  apply get_beatmaps_Return in H
    as [[[=] _] | (l & beatmaps & s1 & _ & Hparse & Hfind & _)].
  symmetry in Hfind. apply find_some in Hfind as [Hin Hid].
  split; [by apply Z.eqb_eq |].
  apply parse_loop_Forall2 in Hparse as (new & -> & Hall).
  cbn [app] in Hin. apply list_elem_of_In, list_elem_of_lookup in Hin as [i Hi].
  destruct (Forall2_lookup_r _ _ _ _ _ Hall Hi) as (r & _ & Hr). eauto.
Qed.

(** The run of [update_beatmap] on a due beatmap when the request returns
    no beatmap or raises. *)
Lemma update_beatmap_no_candidate old env s s1 s2 :
  deserves_update old env s = (Return true, s1) →
  id_from_api (id old) false env s1 = (Return None, s2) →
  update_beatmap old env s
  = (Return None,
     {| ticks := ticks s2;
        executed := executed s
                    ++ [(DELETE_FROM_beatmaps_WHERE_beatmap_md5,
                         delete_values (md5 old))];
        discord := discord s |}).
Proof.
  intros Hdue Hfetch.
  destruct (deserves_update_state _ _ _ _ _ Hdue) as [He1 Hd1].
  destruct (id_from_api_state _ _ _ _ _ Hfetch) as [He2 Hd2].
  unfold update_beatmap. unfold bind at 1. rewrite Hdue. cbn [negb].
  unfold bind at 1. rewrite Hfetch.
  unfold bind, database_execute, ret. by rewrite He2, He1, Hd2, Hd1.
Qed.

Lemma update_beatmap_request_raises old env s s1 e s2 :
  deserves_update old env s = (Return true, s1) →
  id_from_api (id old) false env s1 = (Raise e, s2) →
  update_beatmap old env s = (Raise e, s2).
Proof.
  intros Hdue Hfetch.
  unfold update_beatmap. unfold bind at 1. rewrite Hdue. cbn [negb].
  unfold bind at 1. by rewrite Hfetch.
Qed.

End UpdateMore.

(** X12: when the request for a due beatmap returns no beatmap (the API
    answers 404 or an empty list, or no beatmap of the answer has the id),
    [update_beatmap] deletes the row of the beatmap's checksum, saves
    nothing, sends no notification and returns [None]; in the store the
    checksum has no row afterwards. *)
Theorem unsubmitted_is_deleted (old : Usecases.Beatmap) env s s1 s2 :
  Usecases.deserves_update old env s = (Return true, s1) →
  Usecases.id_from_api (Usecases.id old) false env s1 = (Return None, s2) →
  ∃ s3,
    Usecases.update_beatmap old env s = (Return None, s3)
    ∧ Usecases.executed s3
      = Usecases.executed s
        ++ [(Usecases.DELETE_FROM_beatmaps_WHERE_beatmap_md5,
             Usecases.delete_values (Usecases.md5 old))]
    ∧ Usecases.discord s3 = Usecases.discord s
    ∧ ∀ store,
        run_statements store
          [(Usecases.DELETE_FROM_beatmaps_WHERE_beatmap_md5,
            Usecases.delete_values (Usecases.md5 old))]
        !! Usecases.md5 old = None.
Proof.
  intros Hdue Hfetch.
  rewrite (update_beatmap_no_candidate _ _ _ _ _ Hdue Hfetch).
  eexists. split; [reflexivity |]. split; [reflexivity |].
  split; [reflexivity |].
  intros store. unfold run_statements. cbn [foldl run_statement].
  rewrite delete_values_md5. apply lookup_delete_eq.
Qed.

Lemma unsubmitted_is_deleted_witness :
  ∃ s3,
    Usecases.update_beatmap (Scenario.old "A" RANKED true)
      (Scenario.env_status 404 (Raise (OtherError "404 Not Found")) [])
      Scenario.start
    = (Return None, s3)
    ∧ Usecases.executed s3
      = [(Usecases.DELETE_FROM_beatmaps_WHERE_beatmap_md5,
          Usecases.delete_values "A")]
    ∧ Usecases.discord s3 = [].
Proof.
  destruct (unsubmitted_is_deleted (Scenario.old "A" RANKED true)
              (Scenario.env_status 404 (Raise (OtherError "404 Not Found")) [])
              Scenario.start (Usecases.tick Scenario.start)
              (Usecases.tick Scenario.start))
    as (s3 & Hrun & Hexecuted & Hdiscord & _).
  - vm_compute. reflexivity.
  - vm_compute. reflexivity.
  - exists s3. split; [exact Hrun |]. split; [exact Hexecuted | exact Hdiscord].
Defined.

(** X13: when the request for a due beatmap raises (the API is down, the
    HTTP client fails, the answer does not parse), [update_beatmap] raises
    the same exception and has executed no statement and sent no
    notification: the row of the beatmap stays as it is. *)
Theorem failed_update_changes_nothing (old : Usecases.Beatmap) env s s1 e s2 :
  Usecases.deserves_update old env s = (Return true, s1) →
  Usecases.id_from_api (Usecases.id old) false env s1 = (Raise e, s2) →
  Usecases.update_beatmap old env s = (Raise e, s2)
  ∧ Usecases.executed s2 = Usecases.executed s
  ∧ Usecases.discord s2 = Usecases.discord s.
Proof.
  intros Hdue Hfetch.
  split; [by eapply update_beatmap_request_raises |].
  destruct (deserves_update_state _ _ _ _ _ Hdue) as [He1 Hd1].
  destruct (id_from_api_state _ _ _ _ _ Hfetch) as [He2 Hd2].
  split; congruence.
Qed.

Lemma failed_update_changes_nothing_witness :
  Usecases.update_beatmap (Scenario.old "A" PENDING false)
    (Scenario.env_status 403 (Raise (OtherError "403 Forbidden")) [])
    Scenario.start
  = (Raise (ValueError "osu api is down"), Usecases.tick Scenario.start).
Proof.
  apply (failed_update_changes_nothing (Scenario.old "A" PENDING false)
           (Scenario.env_status 403 (Raise (OtherError "403 Forbidden")) [])
           Scenario.start (Usecases.tick Scenario.start)).
  - vm_compute. reflexivity.
  - vm_compute. reflexivity.
Defined.

Section Identity.

Import Usecases.

Lemma update_beatmap_id old env s merged s' :
  update_beatmap old env s = (Return (Some merged), s') →
  id merged = id old.
Proof.
  intros Hrun.
  destruct (update_beatmap_Return _ _ _ _ _ Hrun)
    as [[-> _] | (cand & s1 & s2 & Hdue & Hfetch)]; [done |].
  rewrite (update_beatmap_fetched _ _ _ _ _ _ Hdue Hfetch) in Hrun.
  cbv zeta in Hrun. injection Hrun as <- _.
  apply id_from_api_parsed in Hfetch as [<- _].
  destruct (negb (String.eqb _ _)), (frozen old); try reflexivity.
  all: by destruct (negb _ && _).
Qed.

End Identity.

(** X14: [update_beatmap] keeps the id: the beatmap a call returns has the
    id of the beatmap it was given, and so has the beatmap that any
    sequence of calls returns, though its checksum may have changed. *)
Theorem update_keeps_id (old b : Usecases.Beatmap) :
  reconciles old b → Usecases.id b = Usecases.id old.
Proof.
  intros Hcalls.
  induction Hcalls as [b | b b' b'' env s s' Hrun _ IH]; [done |].
  rewrite IH. by eapply update_beatmap_id.
Qed.

Lemma update_keeps_id_witness :
  ∃ b s s',
    Usecases.update_beatmap (Scenario.old "A" PENDING false)
      (Scenario.env 1700000000
         [Scenario.record "Z" "1"; Scenario.record "B" "1"])
      s
    = (Return (Some b), s')
    ∧ Usecases.md5 b = "Z"
    ∧ Usecases.id b = 42.
Proof.
  exists (Usecases.set_last_update 1700000003
            (Scenario.candidate "Z" RANKED 1700000001)),
    Scenario.start.
  eexists. split; [vm_compute; reflexivity |]. split; [reflexivity |].
  apply (update_keeps_id (Scenario.old "A" PENDING false)).
  eapply (reconciles_cons _ _ _
            (Scenario.env 1700000000
               [Scenario.record "Z" "1"; Scenario.record "B" "1"])
            Scenario.start);
    [vm_compute; reflexivity | apply reconciles_nil].
Defined.

Section Statuses.

Import Usecases.

(** The status, the frozen flag and [bancho_ranked_status] of the beatmap
    that [update_beatmap] returns for a fetched candidate. *)
Lemma update_beatmap_status old cand env s s1 s2 :
  deserves_update old env s = (Return true, s1) →
  id_from_api (id old) false env s1 = (Return (Some cand), s2) →
  ∃ merged s3,
    update_beatmap old env s = (Return (Some merged), s3)
    ∧ status merged
      = (if frozen old || lost_status old cand then status old
         else status cand)
    ∧ frozen merged
      = (if frozen old || lost_status old cand then true else frozen cand)
    ∧ bancho_ranked_status merged = bancho_ranked_status cand.
Proof.
  intros Hdue Hfetch.
  rewrite (update_beatmap_fetched _ _ _ _ _ _ Hdue Hfetch). cbv zeta.
  eexists. eexists. split; [reflexivity |].
  assert (∀ b, status b = status cand →
               lost_status old b = lost_status old cand) as Hsame
    by (intros b Hb; unfold lost_status; by rewrite Hb).
  destruct (negb (String.eqb (md5 cand) (md5 old)));
    [| rewrite (Hsame (keep_stats old cand) eq_refl)];
    (destruct (frozen old); [done |]);
    cbn [orb status keep_stats set_plays set_passes set_rating set_rankedby];
    (destruct (lost_status old cand) eqn:Hlost;
       [rewrite bool_decide_eq_false_2 by (by apply lost_status_changed)
       | rewrite andb_false_r]; done).
Qed.

End Statuses.

(** X15: a beatmap that is Ranked, Approved or Loved does not come back
    Pending from [update_beatmap], frozen or not: when the API reports
    Pending the old status is kept. *)
Theorem ranked_never_returns_pending (old merged : Usecases.Beatmap) env s s' :
  Usecases.update_beatmap old env s = (Return (Some merged), s') →
  Usecases.status old ∈ [RANKED; APPROVED; LOVED] →
  Usecases.status merged ≠ PENDING.
Proof.
  intros Hrun Hin.
  assert (Usecases.status old ≠ PENDING) as Hold.
  { intros Heq. rewrite Heq in Hin.
    repeat (apply elem_of_cons in Hin as [Hin | Hin]; [discriminate Hin |]).
    by apply elem_of_nil in Hin. }
  destruct (update_beatmap_Return _ _ _ _ _ Hrun)
    as [[-> _] | (cand & s1 & s2 & Hdue & Hfetch)]; [done |].
  destruct (update_beatmap_status _ _ _ _ _ _ Hdue Hfetch)
    as (merged' & s3 & Hrun' & Hstatus & _).
  rewrite Hrun in Hrun'. injection Hrun' as <- _. rewrite Hstatus.
  destruct (Usecases.frozen old); [exact Hold |]. cbn [orb].
  destruct (Usecases.lost_status old cand) eqn:Hlost; [exact Hold |].
  intros Hpending. apply not_true_iff_false in Hlost. apply Hlost.
  by apply lost_status_iff.
Qed.

Lemma ranked_never_returns_pending_witness :
  ∃ merged s',
    Usecases.update_beatmap (Scenario.old "A" LOVED false)
      (Scenario.env 1700000000 [Scenario.record "B" "0"]) Scenario.start
    = (Return (Some merged), s')
    ∧ Usecases.md5 merged = "B"
    ∧ Usecases.status merged ≠ PENDING.
Proof.
  destruct (Usecases.update_beatmap (Scenario.old "A" LOVED false)
              (Scenario.env 1700000000 [Scenario.record "B" "0"])
              Scenario.start)
    as [[[merged |] | e] s'] eqn:Hrun;
    pose proof Hrun as Hvalue; vm_compute in Hvalue;
    try discriminate Hvalue.
  exists merged, s'. split; [reflexivity |].
  split; [by injection Hvalue as <- _ |].
  apply (ranked_never_returns_pending _ _ _ _ _ Hrun).
  apply list_elem_of_further, list_elem_of_further, list_elem_of_here.
Defined.

(** X16: the status the API reported is kept beside the status that is
    stored: the beatmap [update_beatmap] returns for a fetched candidate has
    the candidate's status as [bancho_ranked_status], also when the old
    status is forced on it; and whenever its status differs from the one
    reported, it is frozen. *)
Theorem reported_status_is_recorded (old cand : Usecases.Beatmap) env s s1 s2 :
  Usecases.deserves_update old env s = (Return true, s1) →
  Usecases.id_from_api (Usecases.id old) false env s1
  = (Return (Some cand), s2) →
  ∃ merged s3,
    Usecases.update_beatmap old env s = (Return (Some merged), s3)
    ∧ Usecases.bancho_ranked_status merged = Some (Usecases.status cand)
    ∧ (Usecases.bancho_ranked_status merged ≠ Some (Usecases.status merged) →
       Usecases.frozen merged = true
       ∧ Usecases.status merged = Usecases.status old).
Proof.
  intros Hdue Hfetch.
  destruct (update_beatmap_status _ _ _ _ _ _ Hdue Hfetch)
    as (merged & s3 & Hrun & Hstatus & Hfrozen & Hbancho).
  apply id_from_api_parsed in Hfetch as (_ & r & Hparsed).
  exists merged, s3. split; [exact Hrun |].
  rewrite Hbancho, (parsed_bancho_ranked_status _ _ _ Hparsed).
  split; [reflexivity |].
  rewrite Hstatus, Hfrozen.
  destruct (Usecases.frozen old || Usecases.lost_status old cand); done.
Qed.

Lemma reported_status_is_recorded_witness :
  ∃ merged s3,
    Usecases.update_beatmap (Scenario.old "A" RANKED true)
      (Scenario.env 1700000000 [Scenario.record "A" "4"]) Scenario.start
    = (Return (Some merged), s3)
    ∧ Usecases.bancho_ranked_status merged = Some LOVED
    ∧ Usecases.status merged = RANKED
    ∧ Usecases.frozen merged = true.
Proof.
  destruct (reported_status_is_recorded (Scenario.old "A" RANKED true)
              (Scenario.candidate "A" LOVED 1700000001)
              (Scenario.env 1700000000 [Scenario.record "A" "4"])
              Scenario.start (Usecases.tick Scenario.start)
              (Usecases.tick (Usecases.tick Scenario.start)))
    as (merged & s3 & Hrun & Hbancho & Hforced).
  - vm_compute. reflexivity.
  - vm_compute. reflexivity.
  - exists merged, s3. split; [exact Hrun |]. split; [exact Hbancho |].
    destruct Hforced as [Hfrozen Hstatus].
    + rewrite Hbancho. pose proof Hrun as Hvalue. vm_compute in Hvalue.
      injection Hvalue as <- _. discriminate.
    + split; [exact Hstatus | exact Hfrozen].
Defined.

(** X17: what [update_beatmap] returns for a fetched candidate is what it
    has stored: its last statement is the [REPLACE] of the beatmap it
    returns, so that in the store the row of that beatmap's checksum is the
    row of the beatmap returned; the rows of other checksums than this one
    and the old one are as they were. *)
Theorem returned_beatmap_is_stored (old cand : Usecases.Beatmap) env s s1 s2 :
  Usecases.deserves_update old env s = (Return true, s1) →
  Usecases.id_from_api (Usecases.id old) false env s1
  = (Return (Some cand), s2) →
  ∃ merged s3 statements,
    Usecases.update_beatmap old env s = (Return (Some merged), s3)
    ∧ Usecases.executed s3 = Usecases.executed s ++ statements
    ∧ last statements
      = Some (Usecases.REPLACE_INTO_beatmaps, Usecases.save_values merged)
    ∧ Usecases.md5 merged = Usecases.md5 cand
    ∧ ∀ store,
        run_statements store statements !! Usecases.md5 merged
        = Some (Usecases.save_values merged)
        ∧ ∀ checksum,
            checksum ≠ Usecases.md5 old → checksum ≠ Usecases.md5 merged →
            run_statements store statements !! checksum = store !! checksum.
Proof.
  intros Hdue Hfetch.
  rewrite (update_beatmap_fetched _ _ _ _ _ _ Hdue Hfetch). cbv zeta.
  eexists. eexists. eexists. split; [reflexivity |].
  split; [cbn [Usecases.executed]; reflexivity |].
  match goal with
  | |- context [Usecases.save_values ?m] => set (merged := m)
  end.
  assert (Usecases.md5 merged = Usecases.md5 cand) as Hmd5.
  { unfold merged.
    destruct (negb (String.eqb _ _)), (Usecases.frozen old);
      try reflexivity; by destruct (negb _ && _). }
  split; [by destruct (negb (String.eqb _ _)) |].
  split; [exact Hmd5 |].
  intros store. unfold run_statements.
  destruct (negb (String.eqb _ _)); cbn [app foldl run_statement];
    rewrite ?delete_values_md5, save_values_md5.
  - split; [apply lookup_insert_eq |].
    intros checksum Hold Hnew.
    rewrite lookup_insert_ne by done. by rewrite lookup_delete_ne.
  - split; [apply lookup_insert_eq |].
    intros checksum Hold Hnew. by rewrite lookup_insert_ne.
Qed.

Lemma returned_beatmap_is_stored_witness :
  ∃ merged s3,
    Usecases.update_beatmap (Scenario.old "A" PENDING false)
      (Scenario.env 1700000000 [Scenario.record "B" "1"]) Scenario.start
    = (Return (Some merged), s3)
    ∧ last (Usecases.executed s3)
      = Some (Usecases.REPLACE_INTO_beatmaps, Usecases.save_values merged)
    ∧ Usecases.md5 merged = "B".
Proof.
  destruct (returned_beatmap_is_stored (Scenario.old "A" PENDING false)
              (Scenario.candidate "B" RANKED 1700000001)
              (Scenario.env 1700000000 [Scenario.record "B" "1"])
              Scenario.start (Usecases.tick Scenario.start)
              (Usecases.tick (Usecases.tick Scenario.start)))
    as (merged & s3 & statements & Hrun & Hexecuted & Hlast & Hmd5 & _).
  - vm_compute. reflexivity.
  - vm_compute. reflexivity.
  - exists merged, s3. split; [exact Hrun |].
    split; [rewrite Hexecuted; exact Hlast | exact Hmd5].
Defined.

(** ** The counters *)

Section Counters.

Import Usecases.

Lemma add_to_counters (b : Beatmap) (passcount_increment : Z) :
  add_to_column "playcount" 1
    (add_to_column "passcount" passcount_increment (save_values b))
  = save_values
      (set_passes (passes b + passcount_increment) (set_plays (plays b + 1) b)).
Proof.
  destruct b.
  match goal with |- _ = ?rhs => vm_cast_no_check (eq_refl rhs) end.
Qed.

Lemma increment_playcount_beatmap (b : Beatmap) (flag : bool) :
  (increment_playcount b flag).1
  = set_passes (passes b + (if flag then 1 else 0)) (set_plays (plays b + 1) b).
Proof.
  destruct b, flag; cbn; [reflexivity |]. by rewrite Z.add_0_r.
Qed.

Lemma increment_playcount_statement (b : Beatmap) (flag : bool) :
  (increment_playcount b flag).2
  = (UPDATE_beatmaps_SET_passcount_playcount_WHERE_beatmap_md5,
     list_to_map [("passcount_increment", VInt (if flag then 1 else 0));
                  ("md5", VStr (md5 b))]).
Proof. by destruct flag. Qed.

Lemma run_update_row store (checksum : string) (passcount_increment : Z) :
  run_update store
    (UPDATE_beatmaps_SET_passcount_playcount_WHERE_beatmap_md5,
     list_to_map [("passcount_increment", VInt passcount_increment);
                  ("md5", VStr checksum)])
  = alter (fun row =>
             add_to_column "playcount" 1
               (add_to_column "passcount" passcount_increment row))
          checksum store.
Proof. reflexivity. Qed.

End Counters.

(** X19: [increment_playcount] adds one to [plays], and one to [passes]
    when the play is a pass, and changes nothing else of the beatmap; a
    beatmap with no more passes than plays stays so.  Its statement changes
    the stored row in step with the object: applied to a store that holds
    the row of the beatmap as saved, it leaves the row of the beatmap
    returned, and the rows of other checksums as they were. *)
Theorem increment_playcount_in_step
    (beatmap : Usecases.Beatmap) (increment_passcount : bool) :
  let result := Usecases.increment_playcount beatmap increment_passcount in
  Usecases.plays result.1 = Usecases.plays beatmap + 1
  ∧ Usecases.passes result.1
    = Usecases.passes beatmap + (if increment_passcount then 1 else 0)
  ∧ Usecases.set_passes (Usecases.passes beatmap)
      (Usecases.set_plays (Usecases.plays beatmap) result.1)
    = beatmap
  ∧ (Usecases.passes beatmap <= Usecases.plays beatmap →
     Usecases.passes result.1 <= Usecases.plays result.1)
  ∧ ∀ store : gmap string (gmap string Value),
      store !! Usecases.md5 beatmap = Some (Usecases.save_values beatmap) →
      run_update store result.2 !! Usecases.md5 beatmap
      = Some (Usecases.save_values result.1)
      ∧ ∀ checksum,
          checksum ≠ Usecases.md5 beatmap →
          run_update store result.2 !! checksum = store !! checksum.
Proof.
  cbv zeta.
  rewrite increment_playcount_beatmap, increment_playcount_statement.
  split; [reflexivity |].
  split; [reflexivity |].
  split; [by destruct beatmap |].
  split; [destruct increment_passcount; cbn; lia |].
  intros store Hrow. rewrite run_update_row. split.
  - rewrite lookup_alter_eq, Hrow. cbn [fmap option_fmap option_map].
    by rewrite add_to_counters.
  - intros checksum Hne. by rewrite lookup_alter_ne.
Qed.

(** ** Reading the database *)

Section Database.

Import Usecases.

Lemma to_dict_not_empty (e : Model.Beatmap) (row : gmap string Value) :
  Model.to_dict e ⊆ row → row ≠ ∅.
Proof.
  intros Hsub ->.
  pose proof (lookup_weaken (Model.to_dict e) ∅ "beatmap_md5"
                (VStr (Model.md5 e)) eq_refl Hsub) as H.
  by rewrite lookup_empty in H.
Qed.

End Database.

(** X20: [fetch_by_md5] and [fetch_by_id] ask the database first.  When it
    has a row that holds what [to_dict(e)] holds (and other columns
    besides), they return [e] and do nothing else: no request, no
    statement, no clock reading, whatever the API would answer.  When the
    row cannot be read ([from_mapping] raises) they raise its exception and
    do not turn to the API.  When the database has no row they return what
    [md5_from_api] or [id_from_api], called with the flag, returns. *)
Theorem fetch_asks_database_first (fetch_one : Usecases.FetchOne) env s :
  (∀ md5' row,
      fetch_one Usecases.SELECT_FROM_beatmaps_WHERE_beatmap_md5
        {[ "md5" := VStr md5' ]} = Some row →
      (∀ e, Model.to_dict e ⊆ row →
            Usecases.fetch_by_md5 fetch_one md5' env s
            = (Return (Some (inl e)), s))
      ∧ (∀ x, row ≠ ∅ → Model.from_mapping row = Raise x →
              Usecases.fetch_by_md5 fetch_one md5' env s = (Raise x, s)))
  ∧ (∀ id' row,
        fetch_one Usecases.SELECT_FROM_beatmaps_WHERE_beatmap_id
          {[ "id" := VInt id' ]} = Some row →
        (∀ e, Model.to_dict e ⊆ row →
              Usecases.fetch_by_id fetch_one id' env s
              = (Return (Some (inl e)), s))
        ∧ (∀ x, row ≠ ∅ → Model.from_mapping row = Raise x →
                Usecases.fetch_by_id fetch_one id' env s = (Raise x, s)))
  ∧ (∀ md5',
        fetch_one Usecases.SELECT_FROM_beatmaps_WHERE_beatmap_md5
          {[ "md5" := VStr md5' ]} = None →
        Usecases.fetch_by_md5 fetch_one md5' env s
        = match Usecases.md5_from_api md5' true env s with
          | (Return (Some b), s') => (Return (Some (inr b)), s')
          | (Return None, s') => (Return None, s')
          | (Raise x, s') => (Raise x, s')
          end)
  ∧ (∀ id',
        fetch_one Usecases.SELECT_FROM_beatmaps_WHERE_beatmap_id
          {[ "id" := VInt id' ]} = None →
        Usecases.fetch_by_id fetch_one id' env s
        = match Usecases.id_from_api id' true env s with
          | (Return (Some b), s') => (Return (Some (inr b)), s')
          | (Return None, s') => (Return None, s')
          | (Raise x, s') => (Raise x, s')
          end).
Proof.
  split; [| split; [| split]].
  - intros md5' row Hrow. split.
    + intros e Hsub.
      unfold Usecases.fetch_by_md5, Usecases.md5_from_database.
      rewrite Hrow.
      rewrite bool_decide_eq_false_2 by (by eapply to_dict_not_empty).
      unfold Usecases.bind, Usecases.lift.
      by rewrite (from_mapping_weaken e row Hsub).
    + intros x Hne Hraise.
      unfold Usecases.fetch_by_md5, Usecases.md5_from_database.
      rewrite Hrow. rewrite bool_decide_eq_false_2 by done.
      unfold Usecases.bind, Usecases.lift. by rewrite Hraise.
  - intros id' row Hrow. split.
    + intros e Hsub.
      unfold Usecases.fetch_by_id, Usecases.id_from_database.
      rewrite Hrow.
      rewrite bool_decide_eq_false_2 by (by eapply to_dict_not_empty).
      unfold Usecases.bind, Usecases.lift.
      by rewrite (from_mapping_weaken e row Hsub).
    + intros x Hne Hraise.
      unfold Usecases.fetch_by_id, Usecases.id_from_database.
      rewrite Hrow. rewrite bool_decide_eq_false_2 by done.
      unfold Usecases.bind, Usecases.lift. by rewrite Hraise.
  - intros md5' Hrow.
    unfold Usecases.fetch_by_md5, Usecases.md5_from_database.
    rewrite Hrow. unfold Usecases.bind at 1. unfold Usecases.ret at 1.
    unfold Usecases.bind.
    by destruct (Usecases.md5_from_api md5' true env s) as [[[b |] | x] s'].
  - intros id' Hrow.
    unfold Usecases.fetch_by_id, Usecases.id_from_database.
    rewrite Hrow. unfold Usecases.bind at 1. unfold Usecases.ret at 1.
    unfold Usecases.bind.
    by destruct (Usecases.id_from_api id' true env s) as [[[b |] | x] s'].
Qed.

Lemma fetch_asks_database_first_witness :
  Usecases.fetch_by_md5 Scenario.database "A" Scenario.env_no_key
    Scenario.start
  = (Return (Some (inl Scenario.stored)), Scenario.start)
  ∧ Usecases.fetch_by_id Scenario.no_database 42 Scenario.env_no_key
      Scenario.start
    = (Raise IndexError, Scenario.start).
Proof.
  destruct (fetch_asks_database_first Scenario.database Scenario.env_no_key
              Scenario.start) as (Hmd5 & _ & _ & _).
  destruct (fetch_asks_database_first Scenario.no_database Scenario.env_no_key
              Scenario.start) as (_ & _ & _ & Hid).
  split.
  - apply (Hmd5 "A" _ eq_refl). apply insert_subseteq. reflexivity.
  - rewrite (Hid 42 eq_refl). reflexivity.
Defined.
